(** * docker-ovs-plugin: the Open vSwitch network driver (ovs/driver.go)

    A shallow embedding of the lifecycle handlers of [ovs/driver.go]
    (CreateNetwork, DeleteNetwork, Join, Leave and the option resolution
    they rely on), followed by the properties of the specification that
    concern them.

    Conventions of the embedding.
    - A Go [string] is a byte sequence: Rocq's [string] (a list of 8-bit
      [ascii]); [len] is [String.length], [s[:5]] is [substring 0 5 s] and
      panics when [len s < 5].
    - A Go [map[string]T] is a [gmap string T]; the nil map reads like the
      empty one and this program never writes to a map that may be nil
      ([options] is only read, [networks] is made by [NewDriver]).
    - A Go [int] is a [Z] (64-bit platform; the only integers of the program
      come out of [strconv.Atoi], which checks the range).
    - A run-time panic is a result of its own, distinct from a returned
      [error]; a function of several results returns a tuple, [nil] is [None].
    - Logging has no effect on the results and is left out. *)

From stdpp Require Import base option strings list gmap.
From Stdlib Require Import ZArith Ascii String Lia.

Open Scope string_scope.
Open Scope Z_scope.

(** ** Errors and panics *)

(** The [Err] field of a [strconv.NumError]. *)
Inductive NumErrKind := ErrSyntax | ErrRange.

(** Go's [error] values as this program meets them: what [fmt.Errorf]
    builds, the [*strconv.NumError] of [strconv.Atoi], and the errors that
    the kernel, the switch and the Docker client hand back (opaque to the
    driver, which only forwards them). *)
Inductive error :=
  | Errorf (msg : string)
  | NumError (Func Num : string) (Err : NumErrKind)
  | External (msg : string).

(** The run-time panics of the driver's own code. *)
Inductive panic :=
  | IndexOutOfRange        (* r.IPv4Data[0] on an empty slice *)
  | SliceBoundsOutOfRange  (* id[:5] on a string shorter than 5 bytes *)
  | NilDereference.        (* a field of a nil pointer *)

Inductive Res (A : Type) :=
  | Val (a : A)
  | Panic (p : panic).
Arguments Val {A} a.
Arguments Panic {A} p.

#[global] Instance NumErrKind_eq_dec : EqDecision NumErrKind.
Proof. solve_decision. Defined.
#[global] Instance error_eq_dec : EqDecision error.
Proof. solve_decision. Defined.
#[global] Instance panic_eq_dec : EqDecision panic.
Proof. solve_decision. Defined.

(** ** Constants (driver.go, lines 16-41) *)

Definition defaultRoute : string := "0.0.0.0/0".
Definition ovsPortPrefix : string := "ovs-veth0-".
Definition bridgePrefix : string := "ovsbr-".
Definition containerEthName : string := "eth".

Definition optionKey : string := "com.docker.network.generic".

Definition mtuOption : string := "net.gopher.ovs.bridge.mtu".
Definition modeOption : string := "net.gopher.ovs.bridge.mode".
Definition bridgeNameOption : string := "net.gopher.ovs.bridge.name".
Definition bindInterfaceOption : string := "net.gopher.ovs.bridge.bind_interface".

Definition modeNAT : string := "nat".
Definition modeFlat : string := "flat".

Definition defaultMTU : Z := 1500.
Definition defaultMode : string := modeNAT.

Definition validModes : gmap string bool :=
  <[modeNAT := true]> (<[modeFlat := true]> ∅).

(** ** Data model *)

(** [NetworkState] (lines 54-61). *)
Record NetworkState := {
  BridgeName : string;
  MTU : Z;
  Mode : string;
  Gateway : string;
  GatewayMask : string;
  FlatBindInterface : string
}.

(** [netlink.Veth]: the embedded [LinkAttrs] (of which the driver sets
    [Name]) and the peer's name. *)
Record LinkAttrs := { Name : string }.
Record Veth := { Attrs : LinkAttrs; PeerName : string }.

(** A decoded JSON value, Go's [interface{}] after [encoding/json]: the
    driver tells strings and objects from everything else. *)
#[warnings="-register-all"] Inductive any :=
  | AString (s : string)
  | AMap (m : gmap string any)
  | AOther.

(** [dknet.IPAMData] and the requests and responses of the handlers (the
    fields the driver reads or writes). A slice of pointers is a list of
    options. *)
Record IPAMData := {
  AddressSpace : string;
  Pool : string;
  IPAM_Gateway : string
}.

Record CreateNetworkRequest := {
  CN_NetworkID : string;
  CN_Options : gmap string any;
  IPv4Data : list (option IPAMData);
  IPv6Data : list (option IPAMData)
}.

Record DeleteNetworkRequest := { DN_NetworkID : string }.

Record JoinRequest := {
  J_NetworkID : string;
  J_EndpointID : string;
  SandboxKey : string
}.

Record InterfaceName := { SrcName : string; DstPrefix : string }.

Record JoinResponse := {
  JR_InterfaceName : InterfaceName;
  JR_Gateway : string
}.

Record LeaveRequest := { L_NetworkID : string; L_EndpointID : string }.

(** [dockerclient.NetworkResource], as [findNetworkState] reads it. *)
Record IPAMConfig := { Subnet : string; IC_Gateway : string }.

Record NetworkResource := {
  NR_Driver : string;
  NR_IPAM_Config : list IPAMConfig;
  NR_Options : gmap string string
}.

(** ** strconv.Atoi

    Go's standard library, on a 64-bit platform: an optional sign, then one
    or more decimal digits (no underscore in base 10), the value within
    [-2^63, 2^63 - 1]. [ParseUint] stops at the first character that is not
    a digit (syntax error) or at the first digit that takes the value past
    [2^64 - 1] (range error). The fast path of [Atoi] for short strings
    computes the same results. *)

Definition maxUint64 : Z := 2 ^ 64 - 1.
Definition cutoffInt64 : Z := 2 ^ 63.

Definition isDigit (c : ascii) : bool :=
  (48 <=? Z.of_N (N_of_ascii c)) && (Z.of_N (N_of_ascii c) <=? 57).

Definition digitVal (c : ascii) : Z := Z.of_N (N_of_ascii c) - 48.

Fixpoint parseDigits (s : string) (n : Z) : Z * option NumErrKind :=
  match s with
  | EmptyString => (n, None)
  | String c rest =>
      if isDigit c then
        let n1 := n * 10 + digitVal c in
        if maxUint64 <? n1 then (maxUint64, Some ErrRange)
        else parseDigits rest n1
      else (0, Some ErrSyntax)
  end.

Definition ParseUint (s : string) : Z * option NumErrKind :=
  match s with
  | EmptyString => (0, Some ErrSyntax)
  | _ => parseDigits s 0
  end.

(** [ParseInt(s, 10, 0)] once the sign is taken off: the digits are
    scanned, then the value is checked against the range of [int]. *)
Definition parseSigned (neg : bool) (body : string) : Z * option NumErrKind :=
  match ParseUint body with
  | (_, Some ErrSyntax) => (0, Some ErrSyntax)
  | (un, _) =>
      if negb neg && (cutoffInt64 <=? un) then (cutoffInt64 - 1, Some ErrRange)
      else if neg && (cutoffInt64 <? un) then (- cutoffInt64, Some ErrRange)
      else (if neg then - un else un, None)
  end.

Definition ParseInt (s : string) : Z * option NumErrKind :=
  match s with
  | EmptyString => (0, Some ErrSyntax)
  | String c rest =>
      if bool_decide (c = "+"%char) then parseSigned false rest
      else if bool_decide (c = "-"%char) then parseSigned true rest
      else parseSigned false s
  end.

Definition Atoi (s : string) : Z * option error :=
  let '(i64, err) := ParseInt s in
  (i64, NumError "Atoi" s <$> err).

(** ** Option resolution (pure, lines 326-403) *)

(** [truncateID] (lines 326-328): [id[:5]]. *)
Definition truncateID (id : string) : Res string :=
  if (5 <=? Z.of_nat (String.length id)) then Val (substring 0 5 id)
  else Panic SliceBoundsOutOfRange.

(** [getBridgeMTU] (lines 330-336). [options[mtuOption]] of an absent key
    is the empty string. *)
Definition getBridgeMTU (options : gmap string string) : Z * option error :=
  let bridgeMTU := defaultMTU in
  let bridgeMTU :=
    match Atoi (default "" (options !! mtuOption)) with
    | (mtu, None) => mtu
    | (_, Some _) => bridgeMTU
    end in
  (bridgeMTU, None).

(** [getBridgeName] (lines 338-344): the derived name is computed first,
    whether or not the option overrides it. *)
Definition getBridgeName (id : string) (options : gmap string string)
  : Res (string * option error) :=
  match truncateID id with
  | Panic p => Panic p
  | Val id5 =>
      let bridgeName := bridgePrefix ++ id5 in
      let bridgeName :=
        match options !! bridgeNameOption with
        | Some name => name
        | None => bridgeName
        end in
      Val (bridgeName, None)
  end.

(** [getBridgeMode] (lines 346-355). *)
Definition getBridgeMode (options : gmap string string) : string * option error :=
  let bridgeMode := defaultMode in
  match options !! modeOption with
  | Some mode =>
      match validModes !! mode with
      | None => ("", Some (Errorf (mode ++ " is not a valid mode")))
      | Some _ => (mode, None)
      end
  | None => (bridgeMode, None)
  end.

(** [getBindInterface] (lines 397-403). *)
Definition getBindInterface (options : gmap string string) : string * option error :=
  match options !! bindInterfaceOption with
  | Some mode => (mode, None)
  | None => ("", None)
  end.

(** [stringOptions] (lines 108-123): the string-valued entries under
    [optionKey]; nil (read as the empty map) otherwise. *)
Definition stringOptions (create : CreateNetworkRequest) : gmap string string :=
  match CN_Options create !! optionKey with
  | Some (AMap options) =>
      omap (fun value => match value with AString str => Some str | _ => None end) options
  | _ => ∅
  end.

(** ** The driver and the services it drives *)

(** The handle of [dockerer.client]; [nil] when the client is disabled. *)
Record DockerClient := { URL : string }.

(** [Driver] (lines 43-50): its name, the Docker client and the registry.
    The registry stores pointers to states that nobody writes to after
    [setupNetworkState] built them, so it holds the states themselves; an
    absent key reads as the nil pointer. *)
Record Driver := {
  name : string;
  client : option DockerClient;
  networks : gmap string NetworkState
}.

(** The driver with its registry replaced: the effect of an assignment to
    or a [delete] from [d.networks]. *)
Definition withNetworks (d : Driver) (n : gmap string NetworkState) : Driver :=
  {| name := name d; client := client d; networks := n |}.

(** What the driver asks of the kernel (netlink), of the switch (ovsdb) and
    of the Docker daemon, in the order it asks: the log of one run. *)
Inductive event :=
  | EvLinkAdd (link : Veth)
  | EvLinkSetUp (link : Veth)
  | EvLinkDel (link : Veth)
  | EvInspectNetwork (id : string)
  | EvInitBridge (id : string)
  | EvDeleteBridge (bridgeName : string)
  | EvAddOvsVethPort (bridgeName portName : string) (tag : Z)
  | EvDeletePort (bridgeName portName : string).

#[global] Instance LinkAttrs_eq_dec : EqDecision LinkAttrs.
Proof. solve_decision. Defined.
#[global] Instance Veth_eq_dec : EqDecision Veth.
Proof. solve_decision. Defined.
#[global] Instance event_eq_dec : EqDecision event.
Proof. solve_decision. Defined.

(** The collaborators, over a state [W] of the outside world that each call
    may read and change. [netlink.LinkAdd], [LinkSetUp] and [LinkDel] are
    the kernel's; [InspectNetwork] is the Docker client's; [initBridge],
    [deleteBridge], [addOvsVethPort] and [deletePort] are the driver's switch
    operations, defined in files of the repository other than driver.go and
    taken here by their contract (spec 4.2: synchronous, one [error] result;
    [initBridge] reads the registry entry of the id it is given).
    [ParseIP_To4 s] says whether [net.ParseIP(s).To4()] is not nil, and
    [Sprintf format] is [fmt.Sprintf(format)] with no operand. *)
Record Services (W : Type) := {
  LinkAdd : Veth -> W -> option error * W;
  LinkSetUp : Veth -> W -> option error * W;
  LinkDel : Veth -> W -> option error * W;
  InspectNetwork : DockerClient -> string -> W -> (NetworkResource + error) * W;
  initBridge : gmap string NetworkState -> string -> W -> option error * W;
  deleteBridge : string -> W -> option error * W;
  addOvsVethPort : string -> string -> Z -> W -> option error * W;
  deletePort : string -> string -> W -> option error * W;
  ParseIP_To4 : string -> bool;
  Sprintf : string -> string
}.
Arguments LinkAdd {W} _ _ _.
Arguments LinkSetUp {W} _ _ _.
Arguments LinkDel {W} _ _ _.
Arguments InspectNetwork {W} _ _ _ _.
Arguments initBridge {W} _ _ _ _.
Arguments deleteBridge {W} _ _ _.
Arguments addOvsVethPort {W} _ _ _ _ _.
Arguments deletePort {W} _ _ _ _.
Arguments ParseIP_To4 {W} _ _.
Arguments Sprintf {W} _ _.

(** The state a handler runs in: the driver, the outside world and the log. *)
Record State (W : Type) := mkState {
  drv : Driver;
  world : W;
  trace : list event
}.
Arguments mkState {W} _ _ _.
Arguments drv {W} _.
Arguments world {W} _.
Arguments trace {W} _.

(** [vethPair] (lines 309-314). *)
Definition vethPair (suffix : string) : Veth :=
  {| Attrs := {| Name := ovsPortPrefix ++ suffix |};
     PeerName := "ethc" ++ suffix |}.

Section Handlers.
Context {W : Type} (svc : Services W).

(** A handler: a state transformer that returns or panics. What was done
    before a panic stays done. *)
Definition M (A : Type) : Type := State W -> Res A * State W.

#[export] Instance M_ret : MRet M := fun A a st => (Val a, st).
#[export] Instance M_bind : MBind M := fun A B k m st =>
  match m st with
  | (Val a, st') => k a st'
  | (Panic p, st') => (Panic p, st')
  end.

Definition liftRes {A} (r : Res A) : M A := fun st => (r, st).

Definition getDriver : M Driver := fun st => (Val (drv st), st).

Definition setNetworks (n : gmap string NetworkState) : M unit := fun st =>
  (Val tt, mkState (withNetworks (drv st) n) (world st) (trace st)).

(** One call to a collaborator: logged, then answered by the world. *)
Definition call {A} (ev : event) (f : W -> A * W) : M A := fun st =>
  let '(a, w) := f (world st) in
  (Val a, mkState (drv st) w (trace st ++ [ev])).

(** [setupNetworkState] (lines 125-172). *)
Definition setupNetworkState (id : string) (options : gmap string string)
    (gateway : string) : M (option NetworkState * option error) :=
  '(bridgeName, err) ← liftRes (getBridgeName id options);
  match err with Some e => mret (None, Some e) | None =>
  let '(mtu, err) := getBridgeMTU options in
  match err with Some e => mret (None, Some e) | None =>
  let '(mode, err) := getBridgeMode options in
  match err with Some e => mret (None, Some e) | None =>
  let mask := "24" in
  let '(bindInterface, err) := getBindInterface options in
  match err with Some e => mret (None, Some e) | None =>
  let ns := {| BridgeName := bridgeName; MTU := mtu; Mode := mode;
               Gateway := gateway; GatewayMask := mask;
               FlatBindInterface := bindInterface |} in
  d ← getDriver;
  _ ← setNetworks (<[id := ns]> (networks d));
  d ← getDriver;
  err ← call (EvInitBridge id) (initBridge svc (networks d) id);
  match err with
  | Some e =>
      d ← getDriver;
      _ ← setNetworks (delete id (networks d));
      mret (None, Some e)
  | None => mret (Some ns, None)
  end
  end end end end.

(** The loop of [findNetworkState] (lines 85-93): the first gateway of
    the IPAM configuration that is an IPv4 address, else the empty string. *)
Fixpoint firstIPv4Gateway (config : list IPAMConfig) (gateway : string) : string :=
  match config with
  | [] => gateway
  | value :: rest =>
      if ParseIP_To4 svc (IC_Gateway value) then IC_Gateway value
      else firstIPv4Gateway rest gateway
  end.

(** [findNetworkState] (lines 63-96). *)
Definition findNetworkState (id : string) : M (option NetworkState * option error) :=
  d ← getDriver;
  match networks d !! id with
  | Some ns => mret (Some ns, None)
  | None =>
      match client d with
      | None =>
          mret (None, Some (Errorf "Docker client disabled; unable to get network state"))
      | Some c =>
          r ← call (EvInspectNetwork id) (InspectNetwork svc c id);
          match r with
          | inr err => mret (None, Some err)
          | inl network =>
              if bool_decide (NR_Driver network ≠ name d) then
                mret (None, Some (Errorf "Not our network"))
              else
                let gateway := firstIPv4Gateway (NR_IPAM_Config network) "" in
                setupNetworkState id (NR_Options network) gateway
          end
      end
  end.

(** [CreateNetwork] (lines 98-103). The arguments of the call are
    evaluated first, [r.IPv4Data[0].Gateway] among them. *)
Definition CreateNetwork (r : CreateNetworkRequest) : M (option error) :=
  let options := stringOptions r in
  match IPv4Data r with
  | [] => liftRes (Panic IndexOutOfRange)
  | None :: _ => liftRes (Panic NilDereference)
  | Some ipam :: _ =>
      '(_, err) ← setupNetworkState (CN_NetworkID r) options (IPAM_Gateway ipam);
      mret err
  end.

(** [DeleteNetwork] (lines 174-185). *)
Definition DeleteNetwork (r : DeleteNetworkRequest) : M (option error) :=
  d ← getDriver;
  match networks d !! DN_NetworkID r with
  | None => liftRes (Panic NilDereference)
  | Some ns =>
      let bridgeName := BridgeName ns in
      err ← call (EvDeleteBridge bridgeName) (deleteBridge svc bridgeName);
      match err with
      | Some e => mret (Some e)
      | None =>
          d ← getDriver;
          _ ← setNetworks (delete (DN_NetworkID r) (networks d));
          mret None
      end
  end.

(** [Join] (lines 204-241). *)
Definition Join (r : JoinRequest) : M (option JoinResponse * option error) :=
  id5 ← liftRes (truncateID (J_EndpointID r));
  let localVethPair := vethPair id5 in
  err ← call (EvLinkAdd localVethPair) (LinkAdd svc localVethPair);
  match err with Some e => mret (None, Some e) | None =>
  err ← call (EvLinkSetUp localVethPair) (LinkSetUp svc localVethPair);
  match err with Some e => mret (None, Some e) | None =>
  '(ns, err) ← findNetworkState (J_NetworkID r);
  match err with Some e => mret (None, Some e) | None =>
  match ns with None => liftRes (Panic NilDereference) | Some ns =>
  let bridgeName := BridgeName ns in
  let portName := Name (Attrs localVethPair) in
  err ← call (EvAddOvsVethPort bridgeName portName 0)
             (addOvsVethPort svc bridgeName portName 0);
  match err with Some e => mret (None, Some e) | None =>
  let res := {| JR_InterfaceName := {| SrcName := PeerName localVethPair;
                                       DstPrefix := containerEthName |};
                JR_Gateway := Gateway ns |} in
  mret (Some res, None)
  end end end end end.

(** [Leave] (lines 243-259). The error of [LinkDel] is logged and
    dropped. *)
Definition Leave (r : LeaveRequest) : M (option error) :=
  id5 ← liftRes (truncateID (L_EndpointID r));
  let localVethPair := vethPair id5 in
  _ ← call (EvLinkDel localVethPair) (LinkDel svc localVethPair);
  id5 ← liftRes (truncateID (L_EndpointID r));
  let portID := Sprintf svc (ovsPortPrefix ++ id5) in
  d ← getDriver;
  match networks d !! L_NetworkID r with
  | None => liftRes (Panic NilDereference)
  | Some ns =>
      let bridgeName := BridgeName ns in
      err ← call (EvDeletePort bridgeName portID) (deletePort svc bridgeName portID);
      match err with
      | Some e => mret (Some e)
      | None => mret None
      end
  end.

End Handlers.

(** Unfolds the plumbing of a handler, down to the calls it makes. *)
Ltac run_handler :=
  unfold mbind, M_bind, mret, M_ret, liftRes, getDriver, setNetworks, call;
  cbv beta.

(** ** The taxonomy of errors (spec, section 7), by the errors the code builds *)

Definition InvalidConfiguration (e : error) : Prop :=
  exists mode : string, e = Errorf (mode ++ " is not a valid mode").

Definition NotFound (e : error) : Prop :=
  e = Errorf "Not our network" \/
  e = Errorf "Docker client disabled; unable to get network state".

(** ** A scripted world, to run the handlers on concrete inputs

    Every collaborator answers what the script says, whatever it is asked;
    the world has no state of its own. A gateway counts as an IPv4 address
    when it is not empty, and a format prints as it stands: the scenarios
    have IPv4 gateways and formats with no verb in them. *)

Record Script := {
  onLinkAdd : option error;
  onLinkSetUp : option error;
  onLinkDel : option error;
  onInspectNetwork : NetworkResource + error;
  onInitBridge : option error;
  onDeleteBridge : option error;
  onAddOvsVethPort : option error;
  onDeletePort : option error
}.

Definition scripted (s : Script) : Services unit := {|
  LinkAdd := fun _ w => (onLinkAdd s, w);
  LinkSetUp := fun _ w => (onLinkSetUp s, w);
  LinkDel := fun _ w => (onLinkDel s, w);
  InspectNetwork := fun _ _ w => (onInspectNetwork s, w);
  initBridge := fun _ _ w => (onInitBridge s, w);
  deleteBridge := fun _ w => (onDeleteBridge s, w);
  addOvsVethPort := fun _ _ _ w => (onAddOvsVethPort s, w);
  deletePort := fun _ _ w => (onDeletePort s, w);
  ParseIP_To4 := fun gw => bool_decide (gw <> "");
  Sprintf := fun format => format
|}.

(** Every call succeeds; the Docker daemon knows the network as one of the
    driver named [owner]. *)
Definition allGood (owner : string) : Script := {|
  onLinkAdd := None; onLinkSetUp := None; onLinkDel := None;
  onInspectNetwork :=
    inl {| NR_Driver := owner;
           NR_IPAM_Config := [ {| Subnet := "10.0.0.0/24"; IC_Gateway := "10.0.0.1" |} ];
           NR_Options := ∅ |};
  onInitBridge := None; onDeleteBridge := None;
  onAddOvsVethPort := None; onDeletePort := None
|}.

(** The driver that [NewDriver "ovs"] builds once both connections are up
    (lines 293-302), and the state of a fresh start. *)
Definition newDriver : Driver := {|
  name := "ovs";
  client := Some {| URL := "unix:///var/run/docker.sock" |};
  networks := ∅
|}.

Definition start : State unit := mkState newDriver tt [].

(** The requests and states of the scenarios. *)

Definition ipam10 : IPAMData :=
  {| AddressSpace := "LocalDefault"; Pool := "10.0.0.0/24"; IPAM_Gateway := "10.0.0.1" |}.

Definition createRequest (id : string) (ipv4 : list (option IPAMData)) : CreateNetworkRequest :=
  {| CN_NetworkID := id; CN_Options := ∅; IPv4Data := ipv4; IPv6Data := [] |}.

Definition joinRequest (id : string) : JoinRequest :=
  {| J_NetworkID := id; J_EndpointID := "endpoint12345";
     SandboxKey := "/var/run/docker/netns/default" |}.

Definition leaveRequest (id : string) : LeaveRequest :=
  {| L_NetworkID := id; L_EndpointID := "endpoint12345" |}.

(** The state that default options and the gateway 10.0.0.1 resolve to,
    under the bridge name given. *)
Definition defaultState (bridgeName : string) : NetworkState :=
  {| BridgeName := bridgeName; MTU := 1500; Mode := "nat"; Gateway := "10.0.0.1";
     GatewayMask := "24"; FlatBindInterface := "" |}.

(** A fresh start but for one registered network. *)
Definition registered (id : string) (ns : NetworkState) : State unit :=
  mkState (withNetworks newDriver (<[id := ns]> ∅)) tt [].

(** The switch refuses to initialize the bridge. *)
Definition initFails : Script := {|
  onLinkAdd := None; onLinkSetUp := None; onLinkDel := None;
  onInspectNetwork := inr (External "network not found");
  onInitBridge := Some (External "ovsdb: bridge transaction failed");
  onDeleteBridge := None; onAddOvsVethPort := None; onDeletePort := None
|}.

(** The kernel has no such link to delete and the switch refuses to detach
    the port. *)
Definition leaveFails : Script := {|
  onLinkAdd := None; onLinkSetUp := None;
  onLinkDel := Some (External "Link not found");
  onInspectNetwork := inr (External "network not found");
  onInitBridge := None; onDeleteBridge := None; onAddOvsVethPort := None;
  onDeletePort := Some (External "ovsdb: port transaction failed")
|}.

(** How many times the Docker daemon was asked about a network (the
    fallback lookup of the specification, 4.4) in a log of calls. *)
Definition isFallbackLookup (e : event) : bool :=
  match e with
  | EvInspectNetwork _ => true
  | _ => false
  end.

Definition fallbackLookups (log : list event) : nat :=
  List.length (List.filter isFallbackLookup log).

(** The state a handler leaves, and what it returned. *)
Definition after {W A} (run : Res A * State W) : State W := snd run.
Definition returned {W A} (run : Res A * State W) : Res A := fst run.

(** ** Configuration resolution on its own

    The first part of [setupNetworkState] (lines 126-163), before anything is
    registered: the [resolveConfig] of the specification (4.1). It panics
    when the identifier is too short to truncate, fails when an option is
    invalid, and otherwise yields the state to register. *)
Definition resolveConfig (id : string) (options : gmap string string)
    (gateway : string) : Res (NetworkState + error) :=
  match getBridgeName id options with
  | Panic p => Panic p
  | Val (_, Some e) => Val (inr e)
  | Val (bridgeName, None) =>
      match getBridgeMTU options with
      | (_, Some e) => Val (inr e)
      | (mtu, None) =>
          match getBridgeMode options with
          | (_, Some e) => Val (inr e)
          | (mode, None) =>
              match getBindInterface options with
              | (_, Some e) => Val (inr e)
              | (bindInterface, None) =>
                  Val (inl {| BridgeName := bridgeName; MTU := mtu; Mode := mode;
                              Gateway := gateway; GatewayMask := "24";
                              FlatBindInterface := bindInterface |})
              end
          end
      end
  end.

(** ** What it is to parse as an integer

    The reading of the specification (4.1, MTU), independent of how
    [strconv.Atoi] scans: an integer literal is an optional sign followed by
    one or more decimal digits, and it denotes an [int] when its value lies
    within [-2^63, 2^63 - 1]. *)

Fixpoint allDigits (s : string) : bool :=
  match s with
  | EmptyString => true
  | String c rest => isDigit c && allDigits rest
  end.

Fixpoint decimalValue (s : string) (acc : Z) : Z :=
  match s with
  | EmptyString => acc
  | String c rest => decimalValue rest (acc * 10 + digitVal c)
  end.

Definition literalValue (neg : bool) (digits : string) : option Z :=
  match digits with
  | EmptyString => None
  | _ =>
      if allDigits digits then
        let n := if neg then - decimalValue digits 0 else decimalValue digits 0 in
        if (- 2 ^ 63 <=? n) && (n <=? 2 ^ 63 - 1) then Some n else None
      else None
  end.

Definition integerLiteral (s : string) : option Z :=
  match s with
  | EmptyString => None
  | String c rest =>
      if bool_decide (c = "+"%char) then literalValue false rest
      else if bool_decide (c = "-"%char) then literalValue true rest
      else literalValue false s
  end.

(** ** The rest of driver.go *)

(** The requests and responses of the hooks that do no work. *)
Record CreateEndpointRequest := { CE_NetworkID : string; CE_EndpointID : string }.
Record CreateEndpointResponse := { CE_Interface : option InterfaceName }.
Record DeleteEndpointRequest := { DE_NetworkID : string; DE_EndpointID : string }.
Record InfoRequest := { I_NetworkID : string; I_EndpointID : string }.
Record InfoResponse := { Value : gmap string string }.
Record ProgramExternalConnectivityRequest :=
  { PE_NetworkID : string; PE_EndpointID : string }.
Record RevokeExternalConnectivityRequest :=
  { RE_NetworkID : string; RE_EndpointID : string }.

Section Hooks.
Context {W : Type}.

(** [CreateEndpoint] (lines 187-190). *)
Definition CreateEndpoint (r : CreateEndpointRequest)
  : @M W (option CreateEndpointResponse * option error) :=
  mret (None, None).

(** [DeleteEndpoint] (lines 192-195). *)
Definition DeleteEndpoint (r : DeleteEndpointRequest) : @M W (option error) :=
  mret None.

(** [EndpointInfo] (lines 197-202). *)
Definition EndpointInfo (r : InfoRequest) : @M W (option InfoResponse * option error) :=
  let res := {| Value := ∅ |} in
  mret (Some res, None).

(** [ProgramExternalConnectivity] (lines 261-264). *)
Definition ProgramExternalConnectivity (r : ProgramExternalConnectivityRequest)
  : @M W (option error) :=
  mret None.

(** [RevokeExternalConnectivity] (lines 266-269). *)
Definition RevokeExternalConnectivity (r : RevokeExternalConnectivityRequest)
  : @M W (option error) :=
  mret None.

End Hooks.

(** [getGatewayIP] (lines 357-395): what is left of it outside the comment. *)
Definition getGatewayIP (options : gmap string string) : string * string * option error :=
  ("", "", Some (Errorf "FIXME")).

(** [interfaceUp] (lines 317-324), over the two netlink calls it makes.
    [netlink.LinkByName] returns a link (an interface value, nil or not) and
    an error; [netlink.LinkSetUp] starts by reading the attributes of the
    link it is given, so that a nil link makes it panic. The debug message
    of the error branch is built from [iface.Attrs().Name] before it is
    logged, whatever the log level. *)
Section InterfaceUp.
Context {W Link : Type}.
Variable LinkByName : string -> W -> (option Link * option error) * W.
Variable LinkSetUpLink : Link -> W -> option error * W.

Definition interfaceUp (ifname : string) (w : W) : Res (option error) * W :=
  let '((iface, err), w1) := LinkByName ifname w in
  match err with
  | Some e =>
      match iface with
      | None => (Panic NilDereference, w1)
      | Some _ => (Val (Some e), w1)
      end
  | None =>
      match iface with
      | None => (Panic NilDereference, w1)
      | Some link => let '(res, w2) := LinkSetUpLink link w1 in (Val res, w2)
      end
  end.

End InterfaceUp.

(** [NewDriver] (lines 271-306).

    What the constructor asks, in order. *)
Inductive startupEvent :=
  | SvNewDockerClient (daemonUrl : string)
  | SvConnect (host : string) (port : Z)
  | SvSleep (seconds : Z)
  | SvInitDBCache.

(** The collaborators of the constructor, over the outside world [W] and the
    type [Ovsdb] of the handle of a connection to the switch.
    [NewDockerClient] gives its error by its text, which is all that
    [NewDriver] reads of it (the verb [%s]); [localhost], [ovsdbPort] and
    [initDBCache] are declared in files of the repository other than
    driver.go. *)
Record Startup (W Ovsdb : Type) := {
  localhost : string;
  ovsdbPort : Z;
  NewDockerClient : string -> W -> (option DockerClient * option string) * W;
  Connect : string -> Z -> W -> (option Ovsdb * option error) * W;
  Sleep : Z -> W -> W;
  initDBCache : Ovsdb -> W -> W
}.
Arguments localhost {W Ovsdb} _.
Arguments ovsdbPort {W Ovsdb} _.
Arguments NewDockerClient {W Ovsdb} _ _ _.
Arguments Connect {W Ovsdb} _ _ _ _.
Arguments Sleep {W Ovsdb} _ _ _.
Arguments initDBCache {W Ovsdb} _ _ _.

Section Constructor.
Context {W Ovsdb : Type} (su : Startup W Ovsdb).

(** The loop of lines 280-287, with [attempts] iterations left: each
    attempt overwrites [ovsdb]; a failed one is followed by a sleep of five
    seconds, the last one too. *)
Fixpoint connectLoop (attempts : nat) (ovsdb : option Ovsdb) (w : W)
    (log : list startupEvent) : option Ovsdb * W * list startupEvent :=
  match attempts with
  | O => (ovsdb, w, log)
  | S rest =>
      let '((ovsdb, err), w1) := Connect su (localhost su) (ovsdbPort su) w in
      let log1 := (log ++ [SvConnect (localhost su) (ovsdbPort su)])%list in
      match err with
      | None => (ovsdb, w1, log1)
      | Some _ => connectLoop rest ovsdb (Sleep su 5 w1) (log1 ++ [SvSleep 5])%list
      end
  end.

(** The driver comes with the handle of its connection to the switch (the
    [ovsdber] field, which the handlers reach through [Services]). *)
Definition NewDriver (name : string) (w : W)
  : option (Driver * Ovsdb) * option error * W * list startupEvent :=
  let url := "unix:///var/run/docker.sock" in
  let '((docker, err), w1) := NewDockerClient su url w in
  let log1 := [SvNewDockerClient url] in
  match err with
  | Some text => (None, Some (Errorf ("could not connect to docker: " ++ text)), w1, log1)
  | None =>
      let retries := 3%nat in
      let '(ovsdb, w2, log2) := connectLoop retries None w1 log1 in
      match ovsdb with
      | None => (None, Some (Errorf "could not connect to open vswitch"), w2, log2)
      | Some conn =>
          let d := {| name := name; client := docker; networks := ∅ |} in
          (Some (d, conn), None, initDBCache su conn w2, (log2 ++ [SvInitDBCache])%list)
      end
  end.

End Constructor.

(** ** Measures and invariants for the properties below *)

(** The calls that undo something: deleting a link, a port or a bridge. *)
Definition isTeardown (e : event) : bool :=
  match e with
  | EvLinkDel _ | EvDeleteBridge _ | EvDeletePort _ _ => true
  | _ => false
  end.

(** What every state that the driver registers satisfies. *)
Definition validState (ns : NetworkState) : Prop :=
  (Mode ns = modeNAT \/ Mode ns = modeFlat) /\ GatewayMask ns = "24".

Definition registryValid (d : Driver) : Prop :=
  map_Forall (fun _ ns => validState ns) (networks d).

(** The attempts to connect to the switch and the sleeps in a log of the
    constructor. *)
Definition isConnect (e : startupEvent) : bool :=
  match e with SvConnect _ _ => true | _ => false end.

Definition isSleep (e : startupEvent) : bool :=
  match e with SvSleep _ => true | _ => false end.

Definition isInitDBCache (e : startupEvent) : bool :=
  match e with SvInitDBCache => true | _ => false end.

Definition countStartup (p : startupEvent -> bool) (log : list startupEvent) : nat :=
  List.length (List.filter p log).

(** A format with no [%] in it, which [fmt.Sprintf] prints as it stands. *)
Fixpoint noVerb (format : string) : bool :=
  match format with
  | EmptyString => true
  | String c rest => negb (bool_decide (c = "%"%char)) && noVerb rest
  end.

(** More scripts, requests and states for the scenarios. *)

(** The kernel refuses to create the link pair. *)
Definition linkAddFails : Script := {|
  onLinkAdd := Some (External "file exists"); onLinkSetUp := None; onLinkDel := None;
  onInspectNetwork := inr (External "network not found");
  onInitBridge := None; onDeleteBridge := None; onAddOvsVethPort := None;
  onDeletePort := None
|}.

(** The switch refuses to attach the port. *)
Definition attachFails : Script := {|
  onLinkAdd := None; onLinkSetUp := None; onLinkDel := None;
  onInspectNetwork := inr (External "network not found");
  onInitBridge := None; onDeleteBridge := None;
  onAddOvsVethPort := Some (External "ovsdb: port transaction failed");
  onDeletePort := None
|}.

(** A request with options as the JSON decoder leaves them: the mode as a
    string, the MTU as a number, and a stray top-level key. *)
Definition createWithMode (id mode : string) : CreateNetworkRequest :=
  {| CN_NetworkID := id;
     CN_Options :=
       <[optionKey := AMap (<[modeOption := AString mode]> (<[mtuOption := AOther]> ∅))]>
         (<["com.docker.network.enable_ipv6" := AOther]> ∅);
     IPv4Data := [Some ipam10];
     IPv6Data := [] |}.

(** A fresh start with the Docker client disabled. *)
Definition startWithoutDocker : State unit :=
  mkState {| name := "ovs"; client := None; networks := ∅ |} tt [].

(** The contract of [libovsdb.Connect]: it returns a connection or an
    error, never both and never neither. *)
Definition connectContract {W Ovsdb : Type} (su : Startup W Ovsdb) : Prop :=
  forall (host : string) (port : Z) (w : W),
    match fst (Connect su host port w) with
    | (Some _, None) | (None, Some _) => True
    | _ => False
    end.

(** A switch that refuses the first [failures] connections and accepts the
    next; the world counts the connections asked for, and a connection is
    known by its rank. *)
Definition flakySwitch (failures : nat) : Startup nat nat := {|
  localhost := "127.0.0.1";
  ovsdbPort := 6640;
  NewDockerClient := fun url w => ((Some {| URL := url |}, None), w);
  Connect := fun _ _ w =>
    if (w <? failures)%nat then ((None, Some (External "connection refused")), S w)
    else ((Some w, None), S w);
  Sleep := fun _ w => w;
  initDBCache := fun _ w => w
|}.

(** A kernel with no link of any name. *)
Definition noSuchLink (ifname : string) (w : unit) : (option Veth * option error) * unit :=
  ((None, Some (External "Link not found")), w).

(** * Properties *)

(** ** The model on concrete inputs *)

Example Atoi_9000 : Atoi "9000" = (9000, None).
Proof. reflexivity. Qed.
Example Atoi_neg : Atoi "-5" = (-5, None).
Proof. reflexivity. Qed.
Example Atoi_empty : snd (Atoi "") = Some (NumError "Atoi" "" ErrSyntax).
Proof. reflexivity. Qed.
Example Atoi_jumbo : snd (Atoi "9000 bytes") = Some (NumError "Atoi" "9000 bytes" ErrSyntax).
Proof. reflexivity. Qed.
Example Atoi_big : Atoi "9223372036854775808" = (9223372036854775807, Some (NumError "Atoi" "9223372036854775808" ErrRange)).
Proof. reflexivity. Qed.
Example truncateID_ex : truncateID "endpoint12345" = Val "endpo".
Proof. reflexivity. Qed.
Example getBridgeMode_ex : getBridgeMode (<[modeOption := "flat"]> ∅) = ("flat", None).
Proof. vm_compute. reflexivity. Qed.

(** ** strconv.Atoi against the reading of the specification *)

Lemma isDigit_digitVal (c : ascii) : isDigit c = true -> 0 <= digitVal c <= 9.
Proof.
  unfold isDigit, digitVal. intros H.
  apply andb_true_iff in H as [H1 H2].
  apply Z.leb_le in H1. apply Z.leb_le in H2. lia.
Qed.

Lemma decimalValue_ge (s : string) : forall acc : Z,
  allDigits s = true -> 0 <= acc -> acc <= decimalValue s acc.
Proof.
  induction s as [|c rest IH]; intros acc Hall Hacc; cbn [decimalValue]; [lia|].
  cbn [allDigits] in Hall. apply andb_true_iff in Hall as [Hc Hrest].
  pose proof (isDigit_digitVal c Hc).
  specialize (IH (acc * 10 + digitVal c) Hrest). lia.
Qed.

(** The scan of [ParseUint], digit by digit with its overflow check, reads
    the value of the digit string or says why not. *)
Lemma parseDigits_spec (s : string) : forall acc : Z,
  0 <= acc <= maxUint64 ->
  match parseDigits s acc with
  | (n, None) => allDigits s = true /\ n = decimalValue s acc /\ 0 <= n <= maxUint64
  | (_, Some ErrSyntax) => allDigits s = false
  | (n, Some ErrRange) =>
      n = maxUint64 /\ (allDigits s = false \/ maxUint64 < decimalValue s acc)
  end.
Proof.
  induction s as [|c rest IH]; intros acc Hacc; cbn [parseDigits allDigits decimalValue].
  - auto.
  - destruct (isDigit c) eqn:Hc; [|reflexivity].
    pose proof (isDigit_digitVal c Hc) as Hd.
    destruct (Z.ltb_spec maxUint64 (acc * 10 + digitVal c)) as [Hover|Hfits].
    + split; [reflexivity|].
      destruct (allDigits rest) eqn:Hrest; [right|left; reflexivity].
      pose proof (decimalValue_ge rest (acc * 10 + digitVal c) Hrest). lia.
    + specialize (IH (acc * 10 + digitVal c)).
      destruct (parseDigits rest (acc * 10 + digitVal c)) as [n [[|]|]];
        cbn [andb]; apply IH; lia.
Qed.

Lemma parseSigned_spec (neg : bool) (body : string) :
  match literalValue neg body with
  | Some n => parseSigned neg body = (n, None)
  | None => exists (n : Z) (k : NumErrKind), parseSigned neg body = (n, Some k)
  end.
Proof.
  destruct body as [|b body']; [cbn; eauto|].
  unfold literalValue, parseSigned, ParseUint.
  assert (Hzero : 0 <= 0 <= maxUint64) by (unfold maxUint64; lia).
  pose proof (parseDigits_spec (String b body') 0 Hzero) as Hscan.
  destruct (parseDigits (String b body') 0) as [un [[|]|]].
  - rewrite Hscan. eauto.
  - destruct Hscan as [-> Hwhy].
    assert (Herr : exists (n : Z) (k : NumErrKind),
      (if negb neg && (cutoffInt64 <=? maxUint64) then (cutoffInt64 - 1, Some ErrRange)
       else if neg && (cutoffInt64 <? maxUint64) then (- cutoffInt64, Some ErrRange)
       else (if neg then - maxUint64 else maxUint64, None)) = (n, Some k)).
    { destruct neg; cbn; eauto. }
    destruct (allDigits (String b body')) eqn:Hall; [|exact Herr].
    destruct Hwhy as [Hno|Hbig]; [discriminate|].
    cbv zeta. unfold maxUint64 in Hbig.
    destruct neg.
    + destruct (Z.leb_spec (- 2 ^ 63) (- decimalValue (String b body') 0)); [lia|].
      exact Herr.
    + destruct (Z.leb_spec (decimalValue (String b body') 0) (2 ^ 63 - 1)); [lia|].
      rewrite andb_false_r. exact Herr.
  - destruct Hscan as (Hall & Hun & Hrange). rewrite Hall. cbv zeta. rewrite <- Hun.
    unfold cutoffInt64.
    destruct neg; cbn [negb andb].
    + destruct (Z.ltb_spec (2 ^ 63) un), (Z.leb_spec (- 2 ^ 63) (- un)),
        (Z.leb_spec (- un) (2 ^ 63 - 1)); cbn [andb]; eauto; lia.
    + destruct (Z.leb_spec (2 ^ 63) un), (Z.leb_spec (- 2 ^ 63) un),
        (Z.leb_spec un (2 ^ 63 - 1)); cbn [andb]; eauto; lia.
Qed.

(** [strconv.Atoi] accepts exactly the integer literals in range, with
    their values. *)
Lemma Atoi_integerLiteral (s : string) :
  match integerLiteral s with
  | Some n => Atoi s = (n, None)
  | None => exists (n : Z) (e : error), Atoi s = (n, Some e)
  end.
Proof.
  assert (Hlift : forall (neg : bool) (body : string),
    match literalValue neg body with
    | Some n =>
        (let '(i64, err) := parseSigned neg body in (i64, NumError "Atoi" s <$> err))
        = (n, None)
    | None =>
        exists (n : Z) (e : error),
        (let '(i64, err) := parseSigned neg body in (i64, NumError "Atoi" s <$> err))
        = (n, Some e)
    end).
  { intros neg body. pose proof (parseSigned_spec neg body) as H.
    destruct (literalValue neg body) as [n|].
    - rewrite H. reflexivity.
    - destruct H as (n & k & ->). cbn. eauto. }
  unfold Atoi, integerLiteral, ParseInt.
  destruct s as [|c rest]; [cbn; eauto|].
  destruct (bool_decide (c = "+"%char)); [apply Hlift|].
  destruct (bool_decide (c = "-"%char)); apply Hlift.
Qed.

(** ** Option resolution *)

(** C5. Mode resolution: [nat] when the mode key is absent; the given
    value, unchanged, when it is [nat] or [flat]; and for any other value of
    the key, the empty one included, the InvalidConfiguration error that
    names it. *)
Theorem getBridgeMode_resolution (options : gmap string string) :
  (options !! modeOption = None -> getBridgeMode options = ("nat", None)) /\
  (forall mode : string,
     options !! modeOption = Some mode -> mode = "nat" \/ mode = "flat" ->
     getBridgeMode options = (mode, None)) /\
  (forall mode : string,
     options !! modeOption = Some mode -> mode <> "nat" -> mode <> "flat" ->
     getBridgeMode options = ("", Some (Errorf (mode ++ " is not a valid mode"))) /\
     InvalidConfiguration (Errorf (mode ++ " is not a valid mode"))).
Proof.
  unfold getBridgeMode, validModes, modeNAT, modeFlat.
  split; [|split].
  - intros ->. reflexivity.
  - intros mode -> [-> | ->]; reflexivity.
  - intros mode -> Hnat Hflat.
    rewrite lookup_insert_ne, lookup_insert_ne, lookup_empty by congruence.
    split; [reflexivity | exists mode; reflexivity].
Qed.

(** C6. MTU resolution never returns an error. It yields 1500 when the
    MTU key is absent or its value is not an integer literal in the range of
    [int], and the value of the literal otherwise, whatever that value is
    (zero, negative and huge ones included). *)
Theorem getBridgeMTU_resolution (options : gmap string string) :
  snd (getBridgeMTU options) = None /\
  (options !! mtuOption = None -> getBridgeMTU options = (1500, None)) /\
  (forall value : string,
     options !! mtuOption = Some value -> integerLiteral value = None ->
     getBridgeMTU options = (1500, None)) /\
  (forall (value : string) (mtu : Z),
     options !! mtuOption = Some value -> integerLiteral value = Some mtu ->
     getBridgeMTU options = (mtu, None)).
Proof.
  unfold getBridgeMTU. split; [reflexivity|]. split; [|split].
  - intros ->. reflexivity.
  - intros value -> Hbad. cbn [from_option id].
    pose proof (Atoi_integerLiteral value) as H. rewrite Hbad in H.
    destruct H as (n & e & ->). reflexivity.
  - intros value mtu -> Hgood. cbn [from_option id].
    pose proof (Atoi_integerLiteral value) as H. rewrite Hgood in H.
    rewrite H. reflexivity.
Qed.

Section HandlerFacts.
Context {W : Type} (svc : Services W).

(** [setupNetworkState] is the resolution, then the registration and the
    initialization of the bridge, with the rollback when that fails. *)
Lemma setupNetworkState_run id options gateway (st : State W) :
  setupNetworkState svc id options gateway st =
  match resolveConfig id options gateway with
  | Panic p => (Panic p, st)
  | Val (inr e) => (Val (None, Some e), st)
  | Val (inl ns) =>
      let registry := <[id := ns]> (networks (drv st)) in
      match initBridge svc registry id (world st) with
      | (Some e, w) =>
          (Val (None, Some e),
           mkState (withNetworks (drv st) (delete id registry)) w
                   (trace st ++ [EvInitBridge id]))
      | (None, w) =>
          (Val (Some ns, None),
           mkState (withNetworks (drv st) registry) w
                   (trace st ++ [EvInitBridge id]))
      end
  end.
Proof.
  unfold setupNetworkState, resolveConfig.
  run_handler.
  destruct (getBridgeName id options) as [[bridgeName [e|]]|p]; try reflexivity.
  destruct (getBridgeMTU options) as [mtu [e|]]; try reflexivity.
  destruct (getBridgeMode options) as [mode [e|]]; try reflexivity.
  destruct (getBindInterface options) as [bindInterface [e|]]; try reflexivity.
  cbn.
  destruct (initBridge svc _ id (world st)) as [[e|] w]; reflexivity.
Qed.

Lemma CreateNetwork_run (r : CreateNetworkRequest) (st : State W) :
  CreateNetwork svc r st =
  match IPv4Data r with
  | [] => (Panic IndexOutOfRange, st)
  | None :: _ => (Panic NilDereference, st)
  | Some ipam :: _ =>
      match setupNetworkState svc (CN_NetworkID r) (stringOptions r)
              (IPAM_Gateway ipam) st with
      | (Val (_, err), st') => (Val err, st')
      | (Panic p, st') => (Panic p, st')
      end
  end.
Proof.
  unfold CreateNetwork. destruct (IPv4Data r) as [|[ipam|] rest]; try reflexivity.
  run_handler.
  destruct (setupNetworkState _ _ _ _ st) as [[[ns err]|p] st']; reflexivity.
Qed.

(** C10. A CreateNetwork request whose IPv4 IPAM data list is empty makes
    the handler panic on [r.IPv4Data[0]] (index out of range): no error is
    returned, nothing is registered, no collaborator is called. *)
Theorem CreateNetwork_empty_IPv4Data_panics (r : CreateNetworkRequest) (st : State W) :
  IPv4Data r = [] ->
  CreateNetwork svc r st = (Panic IndexOutOfRange, st).
Proof.
  intros Hempty. rewrite CreateNetwork_run, Hempty. reflexivity.
Qed.

(** C1. When the configuration of a CreateNetwork call resolves to a state
    [ns] and the initialization of the bridge fails with [e], the call
    returns [e], the identifier is absent from the registry afterwards,
    the other entries are untouched, and the bridge initialization was
    the only call made. *)
Theorem CreateNetwork_rollback (r : CreateNetworkRequest) (st : State W)
    (ipam : IPAMData) (rest : list (option IPAMData)) (ns : NetworkState)
    (e : error) (w : W) :
  IPv4Data r = Some ipam :: rest ->
  resolveConfig (CN_NetworkID r) (stringOptions r) (IPAM_Gateway ipam) = Val (inl ns) ->
  initBridge svc (<[CN_NetworkID r := ns]> (networks (drv st))) (CN_NetworkID r) (world st)
    = (Some e, w) ->
  returned (CreateNetwork svc r st) = Val (Some e) /\
  networks (drv (after (CreateNetwork svc r st))) !! CN_NetworkID r = None /\
  (forall id : string, id <> CN_NetworkID r ->
     networks (drv (after (CreateNetwork svc r st))) !! id = networks (drv st) !! id) /\
  trace (after (CreateNetwork svc r st)) = (trace st ++ [EvInitBridge (CN_NetworkID r)])%list.
Proof.
  intros Hdata Hcfg Hinit.
  rewrite CreateNetwork_run, Hdata, setupNetworkState_run, Hcfg.
  cbv zeta. rewrite Hinit. cbn.
  split; [reflexivity|]. split; [apply lookup_delete_eq|].
  split; [|reflexivity].
  intros id Hne. rewrite lookup_delete_ne, lookup_insert_ne; auto.
Qed.

(** C7 (amended). CreateNetwork with an identifier of at least five
    bytes, an empty options map and the IPAM gateway [gw], when the bridge
    initializes, returns no error and registers under the identifier the
    bridge name [ovsbr-] followed by the first five bytes of the
    identifier, MTU 1500, mode [nat], gateway [gw], mask [24] and no bind
    interface. *)
Theorem CreateNetwork_defaults (r : CreateNetworkRequest) (st : State W)
    (ipam : IPAMData) (rest : list (option IPAMData)) (w : W) :
  let ns := {| BridgeName := bridgePrefix ++ substring 0 5 (CN_NetworkID r);
               MTU := 1500; Mode := "nat"; Gateway := IPAM_Gateway ipam;
               GatewayMask := "24"; FlatBindInterface := "" |} in
  (5 <= String.length (CN_NetworkID r))%nat ->
  CN_Options r = ∅ ->
  IPv4Data r = Some ipam :: rest ->
  initBridge svc (<[CN_NetworkID r := ns]> (networks (drv st))) (CN_NetworkID r) (world st)
    = (None, w) ->
  returned (CreateNetwork svc r st) = Val None /\
  networks (drv (after (CreateNetwork svc r st))) !! CN_NetworkID r = Some ns.
Proof.
  intros ns Hlen Hopts Hdata Hinit.
  assert (Hcfg : resolveConfig (CN_NetworkID r) (stringOptions r) (IPAM_Gateway ipam)
                 = Val (inl ns)).
  { unfold resolveConfig, getBridgeName, truncateID, stringOptions.
    rewrite Hopts, lookup_empty.
    destruct (Z.leb_spec 5 (Z.of_nat (String.length (CN_NetworkID r)))) as [_|Hlt]; [|lia].
    reflexivity. }
  rewrite CreateNetwork_run, Hdata, setupNetworkState_run, Hcfg.
  cbv zeta. fold ns. rewrite Hinit. cbn.
  split; [reflexivity | apply lookup_insert_eq].
Qed.

(** C3, as the code has it. DeleteNetwork on an identifier that has no
    registry entry reads [BridgeName] through the nil pointer that the
    lookup yields: it panics, and no error is returned. No bridge teardown
    is attempted and the state is as it was. *)
Theorem DeleteNetwork_unregistered_panics (r : DeleteNetworkRequest) (st : State W) :
  networks (drv st) !! DN_NetworkID r = None ->
  DeleteNetwork svc r st = (Panic NilDereference, st).
Proof.
  intros Hnone. unfold DeleteNetwork. run_handler. rewrite Hnone. reflexivity.
Qed.

(** What [Leave] does, by whether the endpoint identifier can be
    truncated and whether the network is registered. *)
Lemma Leave_run (r : LeaveRequest) (st : State W) :
  Leave svc r st =
  match truncateID (L_EndpointID r) with
  | Panic p => (Panic p, st)
  | Val id5 =>
      let link := vethPair id5 in
      let portID := Sprintf svc (ovsPortPrefix ++ id5) in
      let w1 := snd (LinkDel svc link (world st)) in
      match networks (drv st) !! L_NetworkID r with
      | None =>
          (Panic NilDereference, mkState (drv st) w1 (trace st ++ [EvLinkDel link]))
      | Some ns =>
          let detach := deletePort svc (BridgeName ns) portID w1 in
          (Val (fst detach),
           mkState (drv st) (snd detach)
                   (trace st ++ [EvLinkDel link; EvDeletePort (BridgeName ns) portID]))
      end
  end.
Proof.
  unfold Leave. run_handler.
  destruct (truncateID (L_EndpointID r)) as [id5|p]; [|reflexivity].
  cbv zeta. destruct (LinkDel svc (vethPair id5) (world st)) as [delErr w1].
  cbn [fst snd drv world trace].
  destruct (networks (drv st) !! L_NetworkID r) as [ns|]; [|reflexivity].
  cbn [fst snd drv world trace].
  destruct (deletePort svc (BridgeName ns) _ w1) as [[e|] w2];
    cbn [fst snd drv world trace]; rewrite <- app_assoc; reflexivity.
Qed.

(** C9. Leave on an identifier that has no registry entry never returns,
    with or without an error: it panics, on the nil registry entry as
    soon as the endpoint identifier has the five bytes that its truncation
    needs. It leaves the driver as it was and asks the Docker daemon
    nothing (no fallback lookup). *)
Theorem Leave_unregistered_panics (r : LeaveRequest) (st : State W) :
  networks (drv st) !! L_NetworkID r = None ->
  (exists p : panic, returned (Leave svc r st) = Panic p) /\
  ((5 <= String.length (L_EndpointID r))%nat ->
     returned (Leave svc r st) = Panic NilDereference) /\
  drv (after (Leave svc r st)) = drv st /\
  (exists evs : list event,
     trace (after (Leave svc r st)) = (trace st ++ evs)%list /\
     forall id : string, EvInspectNetwork id ∉ evs).
Proof.
  intros Hnone. rewrite Leave_run. unfold truncateID.
  destruct (Z.leb_spec 5 (Z.of_nat (String.length (L_EndpointID r)))) as [Hge|Hlt].
  - cbv zeta. rewrite Hnone. cbn.
    split; [eauto|]. split; [reflexivity|]. split; [reflexivity|].
    eexists. split; [reflexivity|].
    intros id Hin. apply list_elem_of_singleton in Hin. discriminate.
  - cbn. split; [eauto|]. split; [lia|]. split; [reflexivity|].
    exists []. split; [symmetry; apply app_nil_r|].
    intros id Hin. inversion Hin.
Qed.

(** C4. Leave on a registered network, whatever the kernel and the switch
    answer: the link pair is deleted first, the port named after the
    endpoint is detached from the network's bridge next whether or not the
    deletion failed, and what the detachment answers, an error or nil, is
    what Leave returns. (With an endpoint identifier shorter than five
    bytes the truncation panics before either is attempted.) *)
Theorem Leave_deletes_link_then_detaches_port (r : LeaveRequest) (st : State W)
    (ns : NetworkState) :
  networks (drv st) !! L_NetworkID r = Some ns ->
  match truncateID (L_EndpointID r) with
  | Val id5 =>
      let link := vethPair id5 in
      let portID := Sprintf svc (ovsPortPrefix ++ id5) in
      forall (delErr detachErr : option error) (w1 w2 : W),
        LinkDel svc link (world st) = (delErr, w1) ->
        deletePort svc (BridgeName ns) portID w1 = (detachErr, w2) ->
        returned (Leave svc r st) = Val detachErr /\
        trace (after (Leave svc r st)) =
          (trace st ++ [EvLinkDel link; EvDeletePort (BridgeName ns) portID])%list /\
        world (after (Leave svc r st)) = w2 /\
        drv (after (Leave svc r st)) = drv st
  | Panic p => Leave svc r st = (Panic p, st)
  end.
Proof.
  intros Hsome. rewrite Leave_run.
  destruct (truncateID (L_EndpointID r)) as [id5|p]; [|reflexivity].
  cbv zeta. intros delErr detachErr w1 w2 Hdel Hdetach.
  rewrite Hsome, Hdel. cbn. rewrite Hdetach. cbn. auto.
Qed.

Lemma findNetworkState_registered (id : string) (st : State W) (ns : NetworkState) :
  networks (drv st) !! id = Some ns ->
  findNetworkState svc id st = (Val (Some ns, None), st).
Proof.
  intros Hsome. unfold findNetworkState. run_handler. rewrite Hsome. reflexivity.
Qed.

Lemma findNetworkState_unregistered (id : string) (st : State W) (c : DockerClient)
    (res : NetworkResource + error) (w : W) :
  networks (drv st) !! id = None ->
  client (drv st) = Some c ->
  InspectNetwork svc c id (world st) = (res, w) ->
  let st' := mkState (drv st) w (trace st ++ [EvInspectNetwork id]) in
  findNetworkState svc id st =
  match res with
  | inr err => (Val (None, Some err), st')
  | inl network =>
      if bool_decide (NR_Driver network <> name (drv st)) then
        (Val (None, Some (Errorf "Not our network")), st')
      else
        setupNetworkState svc id (NR_Options network)
          (firstIPv4Gateway svc (NR_IPAM_Config network) "") st'
  end.
Proof.
  intros Hnone Hclient Hinspect st'.
  unfold findNetworkState. run_handler.
  rewrite Hnone, Hclient, Hinspect. cbn [drv world trace]. fold st'.
  destruct res as [network|err]; [|reflexivity].
  destruct (bool_decide (NR_Driver network <> name (drv st))); reflexivity.
Qed.

Lemma fallbackLookups_app (log more : list event) :
  fallbackLookups (log ++ more) = (fallbackLookups log + fallbackLookups more)%nat.
Proof.
  unfold fallbackLookups. rewrite List.filter_app. apply List.length_app.
Qed.

(** [setupNetworkState] asks the Docker daemon nothing. *)
Lemma setupNetworkState_lookups id options gateway (st : State W) :
  fallbackLookups (trace (after (setupNetworkState svc id options gateway st)))
  = fallbackLookups (trace st).
Proof.
  rewrite setupNetworkState_run.
  destruct (resolveConfig id options gateway) as [[ns|e]|p]; try reflexivity.
  cbv zeta.
  destruct (initBridge svc _ id (world st)) as [[e|] w];
    unfold after; cbn [snd trace]; rewrite fallbackLookups_app; cbn; lia.
Qed.

(** [Join] up to the lookup of the network: the link pair is created and
    brought up first. *)
Lemma Join_links_up (r : JoinRequest) (st : State W) (id5 : string) (w1 w2 : W) :
  truncateID (J_EndpointID r) = Val id5 ->
  LinkAdd svc (vethPair id5) (world st) = (None, w1) ->
  LinkSetUp svc (vethPair id5) w1 = (None, w2) ->
  let link := vethPair id5 in
  let st2 := mkState (drv st) w2 (trace st ++ [EvLinkAdd link; EvLinkSetUp link]) in
  Join svc r st =
  match findNetworkState svc (J_NetworkID r) st2 with
  | (Panic p, st3) => (Panic p, st3)
  | (Val (_, Some e), st3) => (Val (None, Some e), st3)
  | (Val (None, None), st3) => (Panic NilDereference, st3)
  | (Val (Some ns, None), st3) =>
      match addOvsVethPort svc (BridgeName ns) (Name (Attrs link)) 0 (world st3) with
      | (Some e, w3) =>
          (Val (None, Some e),
           mkState (drv st3) w3
             (trace st3 ++ [EvAddOvsVethPort (BridgeName ns) (Name (Attrs link)) 0]))
      | (None, w3) =>
          (Val (Some {| JR_InterfaceName := {| SrcName := PeerName link;
                                                DstPrefix := containerEthName |};
                        JR_Gateway := Gateway ns |}, None),
           mkState (drv st3) w3
             (trace st3 ++ [EvAddOvsVethPort (BridgeName ns) (Name (Attrs link)) 0]))
      end
  end.
Proof.
  intros Htrunc Hadd Hup link st2. unfold Join. run_handler.
  rewrite Htrunc. cbv zeta. rewrite Hadd. cbn [drv world trace]. rewrite Hup.
  cbn [drv world trace]. rewrite <- app_assoc. cbn [app]. fold link. fold st2.
  destruct (findNetworkState svc (J_NetworkID r) st2) as [[[[ns|] [e|]]|p] st3];
    try reflexivity.
  destruct (addOvsVethPort svc (BridgeName ns) _ 0 (world st3)) as [[e|] w3];
    reflexivity.
Qed.

(** C2 (amended). Join on an identifier that has no registry entry, once
    the link pair is created and brought up and with the Docker client
    enabled: the Docker daemon is asked exactly once, whatever it answers;
    and if it names another driver, Join fails with the NotFound error
    [Not our network], nothing is asked of the switch and the registry is as
    it was. The link pair was created and brought up before the lookup, and
    stays. *)
Theorem Join_unregistered_foreign_driver (r : JoinRequest) (st : State W)
    (id5 : string) (w1 w2 w3 : W) (c : DockerClient) (res : NetworkResource + error) :
  networks (drv st) !! J_NetworkID r = None ->
  truncateID (J_EndpointID r) = Val id5 ->
  LinkAdd svc (vethPair id5) (world st) = (None, w1) ->
  LinkSetUp svc (vethPair id5) w1 = (None, w2) ->
  client (drv st) = Some c ->
  InspectNetwork svc c (J_NetworkID r) w2 = (res, w3) ->
  fallbackLookups (trace (after (Join svc r st))) = (fallbackLookups (trace st) + 1)%nat /\
  forall network : NetworkResource,
    res = inl network ->
    NR_Driver network <> name (drv st) ->
    NotFound (Errorf "Not our network") /\
    Join svc r st =
      (Val (None, Some (Errorf "Not our network")),
       mkState (drv st) w3
         (trace st ++ [EvLinkAdd (vethPair id5); EvLinkSetUp (vethPair id5);
                       EvInspectNetwork (J_NetworkID r)])).
Proof.
  intros Hnone Htrunc Hadd Hup Hclient Hinspect.
  rewrite (Join_links_up r st id5 w1 w2 Htrunc Hadd Hup). cbv zeta.
  rewrite (findNetworkState_unregistered (J_NetworkID r)
             (mkState (drv st) w2
                (trace st ++ [EvLinkAdd (vethPair id5); EvLinkSetUp (vethPair id5)]))
             c res w3 Hnone Hclient Hinspect).
  cbv zeta. cbn [drv world trace]. rewrite <- app_assoc. cbn [app].
  set (st3 := mkState (drv st) w3
                (trace st ++ [EvLinkAdd (vethPair id5); EvLinkSetUp (vethPair id5);
                              EvInspectNetwork (J_NetworkID r)])).
  assert (Hst3 : fallbackLookups (trace st3) = (fallbackLookups (trace st) + 1)%nat).
  { unfold st3. cbn [trace]. rewrite fallbackLookups_app. reflexivity. }
  split.
  - destruct res as [network|err]; [|exact Hst3].
    destruct (bool_decide (NR_Driver network <> name (drv st))); [exact Hst3|].
    pose proof (setupNetworkState_lookups (J_NetworkID r) (NR_Options network)
                  (firstIPv4Gateway svc (NR_IPAM_Config network) "") st3) as Hsetup.
    unfold after in *.
    destruct (setupNetworkState svc (J_NetworkID r) (NR_Options network) _ st3)
      as [[[[ns|] [e|]]|p] st4]; cbn [snd] in *; try congruence.
    destruct (addOvsVethPort svc (BridgeName ns) _ 0 (world st4)) as [[e|] w4];
      cbn [snd trace]; rewrite fallbackLookups_app; cbn; lia.
  - intros network -> Hforeign. split; [left; reflexivity|].
    rewrite bool_decide_eq_true_2 by exact Hforeign. reflexivity.
Qed.

(** C8 (amended). Join on a registered network, when the link pair is
    created and brought up and the port is attached: the response names
    the peer side [ethc] followed by the first five bytes of the endpoint
    identifier, the prefix [eth] and the gateway of the registered state. *)
Theorem Join_registered (r : JoinRequest) (st : State W) (ns : NetworkState)
    (id5 : string) (w1 w2 w3 : W) :
  networks (drv st) !! J_NetworkID r = Some ns ->
  truncateID (J_EndpointID r) = Val id5 ->
  LinkAdd svc (vethPair id5) (world st) = (None, w1) ->
  LinkSetUp svc (vethPair id5) w1 = (None, w2) ->
  addOvsVethPort svc (BridgeName ns) (ovsPortPrefix ++ id5) 0 w2 = (None, w3) ->
  id5 = substring 0 5 (J_EndpointID r) /\
  returned (Join svc r st) =
    Val (Some {| JR_InterfaceName := {| SrcName := "ethc" ++ id5; DstPrefix := "eth" |};
                 JR_Gateway := Gateway ns |}, None).
Proof.
  intros Hsome Htrunc Hadd Hup Hattach.
  split.
  { unfold truncateID in Htrunc.
    destruct (5 <=? Z.of_nat (String.length (J_EndpointID r))); congruence. }
  rewrite (Join_links_up r st id5 w1 w2 Htrunc Hadd Hup).
  rewrite (findNetworkState_registered _ _ ns) by exact Hsome.
  cbn [drv world trace vethPair Attrs Name PeerName].
  rewrite Hattach. reflexivity.
Qed.

End HandlerFacts.

(** ** The properties on concrete runs *)

(** C10 on a request with no IPv4 data, from a fresh start. *)
Lemma CreateNetwork_empty_IPv4Data_panics_run :
  CreateNetwork (scripted (allGood "ovs")) (createRequest "net12345" []) start
  = (Panic IndexOutOfRange, start).
Proof.
  apply (CreateNetwork_empty_IPv4Data_panics (scripted (allGood "ovs"))
           (createRequest "net12345" []) start).
  reflexivity.
Defined.

(** C1 on a switch that refuses the bridge. *)
Lemma CreateNetwork_rollback_run :
  returned (CreateNetwork (scripted initFails) (createRequest "net12345" [Some ipam10]) start)
    = Val (Some (External "ovsdb: bridge transaction failed")) /\
  networks (drv (after (CreateNetwork (scripted initFails)
                          (createRequest "net12345" [Some ipam10]) start))) !! "net12345"
    = None.
Proof.
  destruct (CreateNetwork_rollback (scripted initFails)
              (createRequest "net12345" [Some ipam10]) start ipam10 []
              (defaultState "ovsbr-net12") (External "ovsdb: bridge transaction failed") tt)
    as (Hreturned & Habsent & _).
  - reflexivity.
  - vm_compute. reflexivity.
  - reflexivity.
  - split; [exact Hreturned | exact Habsent].
Defined.

(** C7 (amended) on the identifier [net12345]. *)
Lemma CreateNetwork_defaults_run :
  returned (CreateNetwork (scripted (allGood "ovs"))
              (createRequest "net12345" [Some ipam10]) start) = Val None /\
  networks (drv (after (CreateNetwork (scripted (allGood "ovs"))
                          (createRequest "net12345" [Some ipam10]) start))) !! "net12345"
    = Some {| BridgeName := "ovsbr-net12"; MTU := 1500; Mode := "nat";
              Gateway := "10.0.0.1"; GatewayMask := "24"; FlatBindInterface := "" |}.
Proof.
  apply (CreateNetwork_defaults (scripted (allGood "ovs"))
           (createRequest "net12345" [Some ipam10]) start ipam10 [] tt).
  - cbn. lia.
  - reflexivity.
  - reflexivity.
  - reflexivity.
Defined.

(** C7, as the specification has it: the identifier [net1] has four bytes,
    [id[:5]] is out of range and CreateNetwork panics; nothing is
    registered and the switch is not asked anything. *)
Lemma CreateNetwork_net1_panics :
  CreateNetwork (scripted (allGood "ovs")) (createRequest "net1" [Some ipam10]) start
  = (Panic SliceBoundsOutOfRange, start).
Proof. vm_compute. reflexivity. Qed.

(** C3 on a fresh start: the failing input. *)
Lemma DeleteNetwork_unregistered_panics_run :
  DeleteNetwork (scripted (allGood "ovs")) {| DN_NetworkID := "net12345" |} start
  = (Panic NilDereference, start).
Proof.
  apply (DeleteNetwork_unregistered_panics (scripted (allGood "ovs"))
           {| DN_NetworkID := "net12345" |} start).
  reflexivity.
Defined.

(** C9 on a fresh start. *)
Lemma Leave_unregistered_panics_run :
  returned (Leave (scripted (allGood "ovs")) (leaveRequest "net12345") start)
  = Panic NilDereference.
Proof.
  destruct (Leave_unregistered_panics (scripted (allGood "ovs"))
              (leaveRequest "net12345") start) as (_ & Hnil & _).
  - reflexivity.
  - apply Hnil. cbn. lia.
Defined.

(** C4 when both the deletion and the detachment fail: the detachment is
    attempted all the same, and its error is the one returned. *)
Lemma Leave_deletes_link_then_detaches_port_run :
  returned (Leave (scripted leaveFails) (leaveRequest "net12345")
              (registered "net12345" (defaultState "ovsbr-net12")))
    = Val (Some (External "ovsdb: port transaction failed")) /\
  trace (after (Leave (scripted leaveFails) (leaveRequest "net12345")
                  (registered "net12345" (defaultState "ovsbr-net12"))))
    = [EvLinkDel (vethPair "endpo"); EvDeletePort "ovsbr-net12" "ovs-veth0-endpo"].
Proof.
  pose proof (Leave_deletes_link_then_detaches_port (scripted leaveFails)
                (leaveRequest "net12345")
                (registered "net12345" (defaultState "ovsbr-net12"))
                (defaultState "ovsbr-net12")) as Hleave.
  destruct (Hleave eq_refl (Some (External "Link not found"))
              (Some (External "ovsdb: port transaction failed")) tt tt eq_refl eq_refl)
    as (Hreturned & Htrace & _).
  split; [exact Hreturned | exact Htrace].
Defined.

(** C2 (amended) when the Docker daemon knows the network as one of the
    [bridge] driver. *)
Lemma Join_unregistered_foreign_driver_run :
  fallbackLookups (trace (after (Join (scripted (allGood "bridge"))
                                   (joinRequest "net12345") start))) = 1%nat /\
  Join (scripted (allGood "bridge")) (joinRequest "net12345") start
  = (Val (None, Some (Errorf "Not our network")),
     mkState newDriver tt
       [EvLinkAdd (vethPair "endpo"); EvLinkSetUp (vethPair "endpo");
        EvInspectNetwork "net12345"]).
Proof.
  destruct (Join_unregistered_foreign_driver (scripted (allGood "bridge"))
              (joinRequest "net12345") start "endpo" tt tt tt
              {| URL := "unix:///var/run/docker.sock" |}
              (onInspectNetwork (allGood "bridge")))
    as [Honce Hfails]; try reflexivity.
  split; [exact Honce|].
  apply (Hfails _ eq_refl). discriminate.
Defined.

(** C2, as the specification has it: on the same run the identifier is not
    registered, the Docker daemon names another driver and Join fails with
    [Not our network], yet the link pair was created and brought up before
    the daemon was asked. *)
Lemma Join_foreign_driver_after_links :
  networks (drv start) !! "net12345" = None /\
  returned (Join (scripted (allGood "bridge")) (joinRequest "net12345") start)
    = Val (None, Some (Errorf "Not our network")) /\
  trace (after (Join (scripted (allGood "bridge")) (joinRequest "net12345") start))
    = [EvLinkAdd (vethPair "endpo"); EvLinkSetUp (vethPair "endpo");
       EvInspectNetwork "net12345"].
Proof. vm_compute. repeat split; reflexivity. Qed.

(** C8 (amended) on the scenario: the network [net12345] is created with the
    gateway 10.0.0.1, then the endpoint [endpoint12345] joins it. *)
Lemma Join_registered_run :
  returned (Join (scripted (allGood "ovs")) (joinRequest "net12345")
              (after (CreateNetwork (scripted (allGood "ovs"))
                        (createRequest "net12345" [Some ipam10]) start)))
  = Val (Some {| JR_InterfaceName := {| SrcName := "ethcendpo"; DstPrefix := "eth" |};
                 JR_Gateway := "10.0.0.1" |}, None).
Proof.
  apply (Join_registered (scripted (allGood "ovs")) (joinRequest "net12345")
           (after (CreateNetwork (scripted (allGood "ovs"))
                     (createRequest "net12345" [Some ipam10]) start))
           (defaultState "ovsbr-net12") "endpo" tt tt tt);
    vm_compute; reflexivity.
Defined.

(** C8, as the specification has it: even from a state in which [net1] is
    registered with the gateway 10.0.0.1 (a state that CreateNetwork cannot
    reach, see C7), the peer name that Join returns for [endpoint12345] is
    [ethcendpo], not [ethcendp1]. *)
Lemma Join_peer_name_is_not_ethcendp1 :
  returned (Join (scripted (allGood "ovs")) (joinRequest "net1")
              (registered "net1" (defaultState "ovsbr-net1")))
    = Val (Some {| JR_InterfaceName := {| SrcName := "ethcendpo"; DstPrefix := "eth" |};
                   JR_Gateway := "10.0.0.1" |}, None) /\
  "ethcendpo" <> "ethcendp1".
Proof. split; [vm_compute; reflexivity | discriminate]. Qed.

(** C5 on three option maps. *)
Lemma getBridgeMode_resolution_run :
  getBridgeMode ∅ = ("nat", None) /\
  getBridgeMode (<[modeOption := "flat"]> ∅) = ("flat", None) /\
  getBridgeMode (<[modeOption := "bridge"]> ∅)
    = ("", Some (Errorf "bridge is not a valid mode")).
Proof.
  split; [|split].
  - apply (proj1 (getBridgeMode_resolution ∅)). reflexivity.
  - apply (proj1 (proj2 (getBridgeMode_resolution (<[modeOption := "flat"]> ∅))));
      [reflexivity | auto].
  - apply (proj2 (proj2 (getBridgeMode_resolution (<[modeOption := "bridge"]> ∅))) "bridge");
      [reflexivity | discriminate | discriminate].
Defined.

(** C6 on four option maps. *)
Lemma getBridgeMTU_resolution_run :
  getBridgeMTU ∅ = (1500, None) /\
  getBridgeMTU (<[mtuOption := "jumbo"]> ∅) = (1500, None) /\
  getBridgeMTU (<[mtuOption := "9000"]> ∅) = (9000, None) /\
  getBridgeMTU (<[mtuOption := "-1"]> ∅) = (-1, None).
Proof.
  split; [|split; [|split]].
  - apply (proj1 (proj2 (getBridgeMTU_resolution ∅))). reflexivity.
  - apply (proj1 (proj2 (proj2 (getBridgeMTU_resolution (<[mtuOption := "jumbo"]> ∅))))
             "jumbo"); reflexivity.
  - apply (proj2 (proj2 (proj2 (getBridgeMTU_resolution (<[mtuOption := "9000"]> ∅))))
             "9000"); reflexivity.
  - apply (proj2 (proj2 (proj2 (getBridgeMTU_resolution (<[mtuOption := "-1"]> ∅))))
             "-1"); reflexivity.
Defined.

(** * Further properties of driver.go *)

(** ** Identifiers and the names derived from them *)

Lemma truncateID_Val (id id5 : string) :
  truncateID id = Val id5 ->
  exists (a b c d e : ascii) (rest : string),
    id = String a (String b (String c (String d (String e rest)))) /\
    id5 = String a (String b (String c (String d (String e EmptyString)))).
Proof.
  unfold truncateID.
  destruct id as [|a [|b [|c [|d [|e rest]]]]]; cbn; try discriminate.
  destruct (5 <=? Z.of_nat (S (S (S (S (S (String.length rest))))))); [|discriminate].
  intros [= <-]. exists a, b, c, d, e, rest. split; [reflexivity|].
  destruct rest; reflexivity.
Qed.

(** X1. A truncated identifier has exactly five bytes, is the beginning of
    the identifier it comes from, and truncates to itself. *)
Theorem truncateID_prefix (id id5 : string) :
  truncateID id = Val id5 ->
  String.length id5 = 5%nat /\
  (exists rest : string, id = id5 ++ rest) /\
  truncateID id5 = Val id5.
Proof.
  intros Htrunc.
  destruct (truncateID_Val id id5 Htrunc) as (a & b & c & d & e & rest & -> & ->).
  split; [reflexivity|]. split; [exists rest; reflexivity | reflexivity].
Qed.

(** X2. The names that the driver derives from identifiers have a fixed
    length: the host side of a link pair has 15 bytes (the longest name a
    Linux interface can bear), its peer 9, and a derived bridge name 11. *)
Theorem derived_names_length (id id5 : string) (options : gmap string string) :
  truncateID id = Val id5 ->
  options !! bridgeNameOption = None ->
  String.length (Name (Attrs (vethPair id5))) = 15%nat /\
  String.length (PeerName (vethPair id5)) = 9%nat /\
  exists bridgeName : string,
    getBridgeName id options = Val (bridgeName, None) /\
    String.length bridgeName = 11%nat.
Proof.
  intros Htrunc Hnone.
  unfold getBridgeName. rewrite Htrunc, Hnone.
  destruct (truncateID_Val id id5 Htrunc) as (a & b & c & d & e & rest & _ & ->).
  split; [reflexivity|]. split; [reflexivity|].
  eexists. split; reflexivity.
Qed.

(** X3. An explicit bridge name, whatever it is, replaces the derived one,
    yet the identifier is truncated all the same: with an identifier shorter
    than five bytes the resolution of the name panics even though the
    derived name is not used. *)
Theorem getBridgeName_override (id : string) (options : gmap string string)
    (bridgeName : string) :
  options !! bridgeNameOption = Some bridgeName ->
  ((5 <= String.length id)%nat -> getBridgeName id options = Val (bridgeName, None)) /\
  ((String.length id < 5)%nat -> getBridgeName id options = Panic SliceBoundsOutOfRange).
Proof.
  intros Hname. unfold getBridgeName, truncateID. rewrite Hname.
  destruct (Z.leb_spec 5 (Z.of_nat (String.length id))); split; intros; try lia; reflexivity.
Qed.

(** X4. The options that CreateNetwork resolves are exactly the
    string-valued entries of the object stored under
    [com.docker.network.generic]: entries of other types, entries of other
    top-level keys and a value under the key that is no object all count
    for nothing. *)
Theorem stringOptions_lookup (create : CreateNetworkRequest) (key value : string) :
  stringOptions create !! key = Some value <->
  exists options : gmap string any,
    CN_Options create !! optionKey = Some (AMap options) /\
    options !! key = Some (AString value).
Proof.
  unfold stringOptions. split.
  - destruct (CN_Options create !! optionKey) as [[s|options|]|] eqn:Hdata;
      try (rewrite lookup_empty; discriminate).
    rewrite lookup_omap_Some. intros (x & Hx & Hlookup).
    destruct x as [s| |]; try discriminate.
    injection Hx as ->. exists options. auto.
  - intros (options & -> & Hlookup).
    apply lookup_omap_Some. exists (AString value). auto.
Qed.

(** ** What the resolution of a configuration yields *)

Lemma validModes_lookup (mode : string) (b : bool) :
  validModes !! mode = Some b -> mode = modeNAT \/ mode = modeFlat.
Proof.
  unfold validModes. intros H.
  apply lookup_insert_Some in H as [[<- _]|[_ H]]; [left; reflexivity|].
  apply lookup_insert_Some in H as [[<- _]|[_ H]]; [right; reflexivity|].
  rewrite lookup_empty in H. discriminate.
Qed.

Lemma validModes_lookup_None (mode : string) :
  validModes !! mode = None -> mode <> modeNAT /\ mode <> modeFlat.
Proof.
  intros H. split; intros ->; vm_compute in H; discriminate.
Qed.

Lemma resolveConfig_valid id options gateway (ns : NetworkState) :
  resolveConfig id options gateway = Val (inl ns) -> validState ns.
Proof.
  unfold resolveConfig, getBridgeMode, getBindInterface.
  destruct (getBridgeName id options) as [[bridgeName [e|]]|p]; try discriminate.
  destruct (getBridgeMTU options) as [mtu [e|]]; try discriminate.
  destruct (options !! modeOption) as [mode|].
  - destruct (validModes !! mode) as [b|] eqn:Hmode; [|discriminate].
    apply validModes_lookup in Hmode.
    destruct (options !! bindInterfaceOption); intros [= <-]; split; auto.
  - destruct (options !! bindInterfaceOption); intros [= <-]; split; auto.
Qed.

Lemma resolveConfig_error id options gateway (e : error) :
  resolveConfig id options gateway = Val (inr e) ->
  exists mode : string,
    options !! modeOption = Some mode /\ mode <> modeNAT /\ mode <> modeFlat /\
    e = Errorf (mode ++ " is not a valid mode").
Proof.
  unfold resolveConfig, getBridgeName, getBridgeMTU, getBridgeMode, getBindInterface.
  destruct (truncateID id) as [id5|p]; [|discriminate].
  destruct (options !! modeOption) as [mode|].
  - destruct (validModes !! mode) as [b|] eqn:Hmode.
    + destruct (options !! bindInterfaceOption); discriminate.
    + intros [= <-]. apply validModes_lookup_None in Hmode as [Hnat Hflat].
      exists mode. auto.
  - destruct (options !! bindInterfaceOption); discriminate.
Qed.

Lemma resolveConfig_defaults (id gateway : string) :
  (5 <= String.length id)%nat ->
  resolveConfig id ∅ gateway =
    Val (inl {| BridgeName := bridgePrefix ++ substring 0 5 id; MTU := 1500;
                Mode := "nat"; Gateway := gateway; GatewayMask := "24";
                FlatBindInterface := "" |}).
Proof.
  intros Hlen. unfold resolveConfig, getBridgeName, truncateID.
  destruct (Z.leb_spec 5 (Z.of_nat (String.length id))) as [_|Hlt]; [|lia].
  reflexivity.
Qed.

Section MoreHandlerFacts.
Context {W : Type} (svc : Services W).

(** ** CreateNetwork and DeleteNetwork *)

(** X5. An error that CreateNetwork returns is either the
    InvalidConfiguration error of an unrecognized mode, and then nothing was
    asked of the switch and nothing changed, or the error of the bridge
    initialization, and then the identifier is not registered. *)
Theorem CreateNetwork_error_provenance (r : CreateNetworkRequest) (st st' : State W)
    (e : error) :
  CreateNetwork svc r st = (Val (Some e), st') ->
  (InvalidConfiguration e /\ st' = st) \/
  (exists (registry : gmap string NetworkState) (w : W),
     initBridge svc registry (CN_NetworkID r) (world st) = (Some e, w) /\
     networks (drv st') !! CN_NetworkID r = None /\
     trace st' = (trace st ++ [EvInitBridge (CN_NetworkID r)])%list).
Proof.
  rewrite CreateNetwork_run.
  destruct (IPv4Data r) as [|[ipam|] rest]; try discriminate.
  rewrite setupNetworkState_run.
  destruct (resolveConfig (CN_NetworkID r) (stringOptions r) (IPAM_Gateway ipam))
    as [[ns|e']|p] eqn:Hcfg; try discriminate.
  - cbv zeta.
    destruct (initBridge svc _ (CN_NetworkID r) (world st)) as [[e'|] w] eqn:Hinit;
      intros [= <- <-]. right.
    eexists _, w. split; [exact Hinit|]. cbn. split; [apply lookup_delete_eq | reflexivity].
  - intros [= <- <-]. left. split; [|reflexivity].
    apply resolveConfig_error in Hcfg as (mode & _ & _ & _ & ->).
    exists mode. reflexivity.
Qed.

(** X6. CreateNetwork with a mode other than [nat] and [flat] among its
    options returns the error that names the mode; the switch is not asked
    to initialize a bridge, and the registry, the world and the log are as
    they were. *)
Theorem CreateNetwork_invalid_mode (r : CreateNetworkRequest) (st : State W)
    (ipam : IPAMData) (rest : list (option IPAMData)) (mode : string) :
  IPv4Data r = Some ipam :: rest ->
  (5 <= String.length (CN_NetworkID r))%nat ->
  stringOptions r !! modeOption = Some mode ->
  mode <> "nat" -> mode <> "flat" ->
  CreateNetwork svc r st = (Val (Some (Errorf (mode ++ " is not a valid mode"))), st).
Proof.
  intros Hdata Hlen Hmode Hnat Hflat.
  rewrite CreateNetwork_run, Hdata, setupNetworkState_run.
  unfold resolveConfig, getBridgeName, truncateID, getBridgeMode.
  destruct (Z.leb_spec 5 (Z.of_nat (String.length (CN_NetworkID r)))) as [_|Hlt]; [|lia].
  destruct (getBridgeMTU (stringOptions r)) as [mtu [e|]] eqn:Hmtu.
  { unfold getBridgeMTU in Hmtu. discriminate. }
  rewrite Hmode.
  unfold validModes, modeNAT, modeFlat.
  rewrite lookup_insert_ne, lookup_insert_ne, lookup_empty by congruence.
  reflexivity.
Qed.

Lemma DeleteNetwork_run (r : DeleteNetworkRequest) (st : State W) :
  DeleteNetwork svc r st =
  match networks (drv st) !! DN_NetworkID r with
  | None => (Panic NilDereference, st)
  | Some ns =>
      let log := (trace st ++ [EvDeleteBridge (BridgeName ns)])%list in
      match deleteBridge svc (BridgeName ns) (world st) with
      | (Some e, w) => (Val (Some e), mkState (drv st) w log)
      | (None, w) =>
          (Val None,
           mkState (withNetworks (drv st) (delete (DN_NetworkID r) (networks (drv st)))) w log)
      end
  end.
Proof.
  unfold DeleteNetwork. run_handler.
  destruct (networks (drv st) !! DN_NetworkID r) as [ns|]; [|reflexivity].
  cbv zeta. destruct (deleteBridge svc (BridgeName ns) (world st)) as [[e|] w]; reflexivity.
Qed.

(** X7. DeleteNetwork on a registered network asks the switch once, to
    delete the bridge registered for it. If that fails the error is
    returned and the registry keeps the entry; if it succeeds the entry is
    removed and the other entries stay. *)
Theorem DeleteNetwork_registered (r : DeleteNetworkRequest) (st : State W)
    (ns : NetworkState) (res : option error) (w : W) :
  networks (drv st) !! DN_NetworkID r = Some ns ->
  deleteBridge svc (BridgeName ns) (world st) = (res, w) ->
  returned (DeleteNetwork svc r st) = Val res /\
  trace (after (DeleteNetwork svc r st)) = (trace st ++ [EvDeleteBridge (BridgeName ns)])%list /\
  networks (drv (after (DeleteNetwork svc r st))) =
    match res with
    | Some _ => networks (drv st)
    | None => delete (DN_NetworkID r) (networks (drv st))
    end.
Proof.
  intros Hsome Hdelete. rewrite DeleteNetwork_run, Hsome. cbv zeta. rewrite Hdelete.
  destruct res; cbn; auto.
Qed.

(** X8. CreateNetwork of a fresh identifier followed by DeleteNetwork of the
    same identifier, when the switch accepts both: both return nil, the
    registry is back to what it was, and the switch was asked exactly to
    initialize the bridge and then to delete the bridge of the registered
    name. *)
Theorem CreateNetwork_then_DeleteNetwork (r : CreateNetworkRequest) (st : State W)
    (ipam : IPAMData) (rest : list (option IPAMData)) (ns : NetworkState) (w1 w2 : W) :
  networks (drv st) !! CN_NetworkID r = None ->
  IPv4Data r = Some ipam :: rest ->
  resolveConfig (CN_NetworkID r) (stringOptions r) (IPAM_Gateway ipam) = Val (inl ns) ->
  initBridge svc (<[CN_NetworkID r := ns]> (networks (drv st))) (CN_NetworkID r) (world st)
    = (None, w1) ->
  deleteBridge svc (BridgeName ns) w1 = (None, w2) ->
  let created := CreateNetwork svc r st in
  let deleted := DeleteNetwork svc {| DN_NetworkID := CN_NetworkID r |} (after created) in
  returned created = Val None /\
  returned deleted = Val None /\
  networks (drv (after deleted)) = networks (drv st) /\
  trace (after deleted) =
    (trace st ++ [EvInitBridge (CN_NetworkID r); EvDeleteBridge (BridgeName ns)])%list.
Proof.
  intros Hfresh Hdata Hcfg Hinit Hdelete created deleted.
  unfold deleted, created.
  rewrite CreateNetwork_run, Hdata, setupNetworkState_run, Hcfg.
  cbv zeta. rewrite Hinit. unfold after, returned. cbn [fst snd].
  rewrite DeleteNetwork_run. cbn [drv world trace networks withNetworks DN_NetworkID].
  rewrite lookup_insert_eq. cbv zeta. rewrite Hdelete. cbn.
  split; [reflexivity|]. split; [reflexivity|].
  split; [apply delete_insert_id; exact Hfresh|].
  rewrite <- app_assoc. reflexivity.
Qed.

(** X9. Nothing guards against creating a network twice: a second
    CreateNetwork with the same request asks the switch to initialize the
    bridge again, and when that succeeds the registry is what the first call
    left. *)
Theorem CreateNetwork_twice (r : CreateNetworkRequest) (st : State W)
    (ipam : IPAMData) (rest : list (option IPAMData)) (ns : NetworkState) (w1 w2 : W) :
  IPv4Data r = Some ipam :: rest ->
  resolveConfig (CN_NetworkID r) (stringOptions r) (IPAM_Gateway ipam) = Val (inl ns) ->
  initBridge svc (<[CN_NetworkID r := ns]> (networks (drv st))) (CN_NetworkID r) (world st)
    = (None, w1) ->
  initBridge svc (<[CN_NetworkID r := ns]> (networks (drv st))) (CN_NetworkID r) w1
    = (None, w2) ->
  let once := CreateNetwork svc r st in
  let twice := CreateNetwork svc r (after once) in
  returned twice = Val None /\
  networks (drv (after twice)) = networks (drv (after once)) /\
  trace (after twice) =
    (trace st ++ [EvInitBridge (CN_NetworkID r); EvInitBridge (CN_NetworkID r)])%list.
Proof.
  intros Hdata Hcfg Hinit1 Hinit2 once twice.
  unfold twice, once.
  rewrite (CreateNetwork_run svc r st), Hdata, setupNetworkState_run, Hcfg.
  cbv zeta. rewrite Hinit1. unfold after, returned. cbn [fst snd].
  rewrite CreateNetwork_run, Hdata, setupNetworkState_run, Hcfg.
  cbv zeta. cbn [drv world trace networks withNetworks].
  rewrite insert_insert_eq, Hinit2. cbn.
  split; [reflexivity|]. split; [reflexivity|].
  rewrite <- app_assoc. reflexivity.
Qed.

(** X10. Two networks whose identifiers differ but share their first five
    bytes, created with no options, are both registered, under one and the
    same bridge name. *)
Theorem CreateNetwork_bridge_name_collision (r1 r2 : CreateNetworkRequest) (st : State W)
    (ipam1 ipam2 : IPAMData) (rest1 rest2 : list (option IPAMData)) (w1 w2 : W) :
  let ns1 := {| BridgeName := bridgePrefix ++ substring 0 5 (CN_NetworkID r1);
                MTU := 1500; Mode := "nat"; Gateway := IPAM_Gateway ipam1;
                GatewayMask := "24"; FlatBindInterface := "" |} in
  let ns2 := {| BridgeName := bridgePrefix ++ substring 0 5 (CN_NetworkID r2);
                MTU := 1500; Mode := "nat"; Gateway := IPAM_Gateway ipam2;
                GatewayMask := "24"; FlatBindInterface := "" |} in
  let registry1 := <[CN_NetworkID r1 := ns1]> (networks (drv st)) in
  CN_NetworkID r1 <> CN_NetworkID r2 ->
  (5 <= String.length (CN_NetworkID r1))%nat ->
  (5 <= String.length (CN_NetworkID r2))%nat ->
  substring 0 5 (CN_NetworkID r1) = substring 0 5 (CN_NetworkID r2) ->
  CN_Options r1 = ∅ -> CN_Options r2 = ∅ ->
  IPv4Data r1 = Some ipam1 :: rest1 -> IPv4Data r2 = Some ipam2 :: rest2 ->
  initBridge svc registry1 (CN_NetworkID r1) (world st) = (None, w1) ->
  initBridge svc (<[CN_NetworkID r2 := ns2]> registry1) (CN_NetworkID r2) w1 = (None, w2) ->
  let first := CreateNetwork svc r1 st in
  let second := CreateNetwork svc r2 (after first) in
  returned first = Val None /\
  returned second = Val None /\
  networks (drv (after second)) !! CN_NetworkID r1 = Some ns1 /\
  networks (drv (after second)) !! CN_NetworkID r2 = Some ns2 /\
  BridgeName ns1 = BridgeName ns2.
Proof.
  intros ns1 ns2 registry1 Hne Hlen1 Hlen2 Hprefix Hopts1 Hopts2 Hdata1 Hdata2
    Hinit1 Hinit2 first second.
  assert (Hcfg : forall (r : CreateNetworkRequest) (gateway : string),
            CN_Options r = ∅ -> (5 <= String.length (CN_NetworkID r))%nat ->
            resolveConfig (CN_NetworkID r) (stringOptions r) gateway =
              Val (inl {| BridgeName := bridgePrefix ++ substring 0 5 (CN_NetworkID r);
                          MTU := 1500; Mode := "nat"; Gateway := gateway;
                          GatewayMask := "24"; FlatBindInterface := "" |})).
  { intros r gateway Hopts Hlen. unfold stringOptions. rewrite Hopts, lookup_empty.
    apply resolveConfig_defaults. exact Hlen. }
  unfold second, first.
  rewrite (CreateNetwork_run svc r1 st), Hdata1, setupNetworkState_run,
    (Hcfg r1 _ Hopts1 Hlen1).
  cbv zeta. fold ns1. fold registry1. rewrite Hinit1.
  unfold after, returned. cbn [fst snd].
  rewrite CreateNetwork_run, Hdata2, setupNetworkState_run, (Hcfg r2 _ Hopts2 Hlen2).
  cbv zeta. fold ns2. cbn [drv world trace networks withNetworks]. rewrite Hinit2.
  cbn [fst snd drv networks withNetworks].
  split; [reflexivity|]. split; [reflexivity|].
  split; [|split].
  - rewrite lookup_insert_ne by congruence. apply lookup_insert_eq.
  - apply lookup_insert_eq.
  - unfold ns1, ns2. cbn [BridgeName]. rewrite Hprefix. reflexivity.
Qed.

(** ** Join *)

Lemma findNetworkState_run (id : string) (st : State W) :
  findNetworkState svc id st =
  match networks (drv st) !! id with
  | Some ns => (Val (Some ns, None), st)
  | None =>
      match client (drv st) with
      | None =>
          (Val (None, Some (Errorf "Docker client disabled; unable to get network state")),
           st)
      | Some c =>
          let st' := mkState (drv st) (snd (InspectNetwork svc c id (world st)))
                       (trace st ++ [EvInspectNetwork id]) in
          match fst (InspectNetwork svc c id (world st)) with
          | inr err => (Val (None, Some err), st')
          | inl network =>
              if bool_decide (NR_Driver network <> name (drv st)) then
                (Val (None, Some (Errorf "Not our network")), st')
              else
                setupNetworkState svc id (NR_Options network)
                  (firstIPv4Gateway svc (NR_IPAM_Config network) "") st'
          end
      end
  end.
Proof.
  destruct (networks (drv st) !! id) as [ns|] eqn:Hlookup.
  - apply findNetworkState_registered. exact Hlookup.
  - destruct (client (drv st)) as [c|] eqn:Hclient.
    + destruct (InspectNetwork svc c id (world st)) as [res w] eqn:Hinspect.
      apply (findNetworkState_unregistered svc id st c res w Hlookup Hclient Hinspect).
    + unfold findNetworkState. run_handler. rewrite Hlookup, Hclient. reflexivity.
Qed.

Lemma Join_run (r : JoinRequest) (st : State W) :
  Join svc r st =
  match truncateID (J_EndpointID r) with
  | Panic p => (Panic p, st)
  | Val id5 =>
      let link := vethPair id5 in
      match LinkAdd svc link (world st) with
      | (Some e, w1) =>
          (Val (None, Some e), mkState (drv st) w1 (trace st ++ [EvLinkAdd link]))
      | (None, w1) =>
          match LinkSetUp svc link w1 with
          | (Some e, w2) =>
              (Val (None, Some e),
               mkState (drv st) w2 (trace st ++ [EvLinkAdd link; EvLinkSetUp link]))
          | (None, w2) =>
              let st2 := mkState (drv st) w2
                           (trace st ++ [EvLinkAdd link; EvLinkSetUp link]) in
              match findNetworkState svc (J_NetworkID r) st2 with
              | (Panic p, st3) => (Panic p, st3)
              | (Val (_, Some e), st3) => (Val (None, Some e), st3)
              | (Val (None, None), st3) => (Panic NilDereference, st3)
              | (Val (Some ns, None), st3) =>
                  let attach := EvAddOvsVethPort (BridgeName ns) (Name (Attrs link)) 0 in
                  match addOvsVethPort svc (BridgeName ns) (Name (Attrs link)) 0
                          (world st3) with
                  | (Some e, w3) =>
                      (Val (None, Some e), mkState (drv st3) w3 (trace st3 ++ [attach]))
                  | (None, w3) =>
                      (Val (Some {| JR_InterfaceName :=
                                      {| SrcName := PeerName link;
                                         DstPrefix := containerEthName |};
                                    JR_Gateway := Gateway ns |}, None),
                       mkState (drv st3) w3 (trace st3 ++ [attach]))
                  end
              end
          end
      end
  end.
Proof.
  destruct (truncateID (J_EndpointID r)) as [id5|p] eqn:Htrunc.
  - cbv zeta.
    destruct (LinkAdd svc (vethPair id5) (world st)) as [[e|] w1] eqn:Hadd.
    + unfold Join. run_handler. rewrite Htrunc. cbv zeta. rewrite Hadd. reflexivity.
    + destruct (LinkSetUp svc (vethPair id5) w1) as [[e|] w2] eqn:Hup.
      * unfold Join. run_handler. rewrite Htrunc. cbv zeta. rewrite Hadd.
        cbn [drv world trace]. rewrite Hup. cbn [drv world trace].
        rewrite <- app_assoc. reflexivity.
      * apply (Join_links_up svc r st id5 w1 w2 Htrunc Hadd Hup).
  - unfold Join. run_handler. rewrite Htrunc. reflexivity.
Qed.

(** X11. When the kernel refuses to create the link pair, or to bring it
    up, Join returns the kernel's error at once: the network is not looked
    up, the switch is not asked anything, the driver is unchanged, and a
    link pair that was created is left in place (it is not deleted). *)
Theorem Join_link_failure (r : JoinRequest) (st : State W) (id5 : string) (e : error) :
  truncateID (J_EndpointID r) = Val id5 ->
  (forall w1 : W,
     LinkAdd svc (vethPair id5) (world st) = (Some e, w1) ->
     Join svc r st =
       (Val (None, Some e), mkState (drv st) w1 (trace st ++ [EvLinkAdd (vethPair id5)]))) /\
  (forall w1 w2 : W,
     LinkAdd svc (vethPair id5) (world st) = (None, w1) ->
     LinkSetUp svc (vethPair id5) w1 = (Some e, w2) ->
     Join svc r st =
       (Val (None, Some e),
        mkState (drv st) w2
          (trace st ++ [EvLinkAdd (vethPair id5); EvLinkSetUp (vethPair id5)]))).
Proof.
  intros Htrunc. split.
  - intros w1 Hadd. rewrite Join_run, Htrunc. cbv zeta. rewrite Hadd. reflexivity.
  - intros w1 w2 Hadd Hup. rewrite Join_run, Htrunc. cbv zeta. rewrite Hadd, Hup.
    reflexivity.
Qed.

(** X12. When the switch refuses to attach the port, Join on a registered
    network returns the switch's error and undoes nothing: the calls made
    are the creation of the link pair, its bring-up and the attachment, and
    the driver is unchanged. *)
Theorem Join_attach_failure (r : JoinRequest) (st : State W) (ns : NetworkState)
    (id5 : string) (w1 w2 w3 : W) (e : error) :
  networks (drv st) !! J_NetworkID r = Some ns ->
  truncateID (J_EndpointID r) = Val id5 ->
  LinkAdd svc (vethPair id5) (world st) = (None, w1) ->
  LinkSetUp svc (vethPair id5) w1 = (None, w2) ->
  addOvsVethPort svc (BridgeName ns) (ovsPortPrefix ++ id5) 0 w2 = (Some e, w3) ->
  Join svc r st =
    (Val (None, Some e),
     mkState (drv st) w3
       (trace st ++ [EvLinkAdd (vethPair id5); EvLinkSetUp (vethPair id5);
                     EvAddOvsVethPort (BridgeName ns) (ovsPortPrefix ++ id5) 0])).
Proof.
  intros Hsome Htrunc Hadd Hup Hattach.
  rewrite Join_run, Htrunc. cbv zeta. rewrite Hadd, Hup.
  rewrite (findNetworkState_registered svc _ _ ns) by exact Hsome.
  cbn [drv world trace vethPair Attrs Name]. rewrite Hattach.
  rewrite <- app_assoc. reflexivity.
Qed.

(** X13. Join on an identifier that has no registry entry, once the link
    pair is up, when the fallback is of no help: with the Docker client
    disabled the daemon is not asked and Join fails with
    [Docker client disabled; unable to get network state]; when the daemon
    answers with an error, Join returns that error. Either way the registry
    and the switch are untouched and the link pair stays. *)
Theorem Join_fallback_unavailable (r : JoinRequest) (st : State W) (id5 : string)
    (w1 w2 : W) :
  networks (drv st) !! J_NetworkID r = None ->
  truncateID (J_EndpointID r) = Val id5 ->
  LinkAdd svc (vethPair id5) (world st) = (None, w1) ->
  LinkSetUp svc (vethPair id5) w1 = (None, w2) ->
  let links := [EvLinkAdd (vethPair id5); EvLinkSetUp (vethPair id5)] in
  (client (drv st) = None ->
     Join svc r st =
       (Val (None, Some (Errorf "Docker client disabled; unable to get network state")),
        mkState (drv st) w2 (trace st ++ links))) /\
  (forall (c : DockerClient) (err : error) (w3 : W),
     client (drv st) = Some c ->
     InspectNetwork svc c (J_NetworkID r) w2 = (inr err, w3) ->
     Join svc r st =
       (Val (None, Some err),
        mkState (drv st) w3 (trace st ++ links ++ [EvInspectNetwork (J_NetworkID r)]))).
Proof.
  intros Hnone Htrunc Hadd Hup links.
  split.
  - intros Hclient. rewrite Join_run, Htrunc. cbv zeta. rewrite Hadd, Hup.
    rewrite findNetworkState_run. cbn [drv world trace]. rewrite Hnone, Hclient.
    reflexivity.
  - intros c err w3 Hclient Hinspect. rewrite Join_run, Htrunc. cbv zeta.
    rewrite Hadd, Hup. rewrite findNetworkState_run. cbn [drv world trace].
    rewrite Hnone, Hclient, Hinspect. cbn [fst snd]. rewrite <- app_assoc. reflexivity.
Qed.

(** X14. Join on an identifier that has no registry entry rebuilds the
    network from what the Docker daemon knows, when the daemon names this
    driver: the configuration is resolved from the daemon's options and the
    first IPv4 gateway of its IPAM configuration, the state is registered,
    the bridge is initialized, the port is attached, and the response
    carries that gateway. The calls are made in this order: link creation,
    bring-up, lookup, bridge initialization, attachment. *)
Theorem Join_reconstructs (r : JoinRequest) (st : State W) (id5 : string)
    (w1 w2 w3 w4 w5 : W) (c : DockerClient) (network : NetworkResource)
    (ns : NetworkState) :
  networks (drv st) !! J_NetworkID r = None ->
  truncateID (J_EndpointID r) = Val id5 ->
  LinkAdd svc (vethPair id5) (world st) = (None, w1) ->
  LinkSetUp svc (vethPair id5) w1 = (None, w2) ->
  client (drv st) = Some c ->
  InspectNetwork svc c (J_NetworkID r) w2 = (inl network, w3) ->
  NR_Driver network = name (drv st) ->
  resolveConfig (J_NetworkID r) (NR_Options network)
    (firstIPv4Gateway svc (NR_IPAM_Config network) "") = Val (inl ns) ->
  initBridge svc (<[J_NetworkID r := ns]> (networks (drv st))) (J_NetworkID r) w3
    = (None, w4) ->
  addOvsVethPort svc (BridgeName ns) (ovsPortPrefix ++ id5) 0 w4 = (None, w5) ->
  Join svc r st =
    (Val (Some {| JR_InterfaceName := {| SrcName := "ethc" ++ id5; DstPrefix := "eth" |};
                  JR_Gateway := firstIPv4Gateway svc (NR_IPAM_Config network) "" |}, None),
     mkState (withNetworks (drv st) (<[J_NetworkID r := ns]> (networks (drv st)))) w5
       (trace st ++ [EvLinkAdd (vethPair id5); EvLinkSetUp (vethPair id5);
                     EvInspectNetwork (J_NetworkID r); EvInitBridge (J_NetworkID r);
                     EvAddOvsVethPort (BridgeName ns) (ovsPortPrefix ++ id5) 0])).
Proof.
  intros Hnone Htrunc Hadd Hup Hclient Hinspect Hours Hcfg Hinit Hattach.
  assert (Hgw : Gateway ns = firstIPv4Gateway svc (NR_IPAM_Config network) "").
  { unfold resolveConfig in Hcfg.
    destruct (getBridgeName _ _) as [[b [e|]]|p]; try discriminate.
    destruct (getBridgeMTU _) as [mtu [e|]]; try discriminate.
    destruct (getBridgeMode _) as [mode [e|]]; try discriminate.
    destruct (getBindInterface _) as [bind [e|]]; try discriminate.
    injection Hcfg as <-. reflexivity. }
  rewrite Join_run, Htrunc. cbv zeta. rewrite Hadd, Hup.
  rewrite findNetworkState_run. cbn [drv world trace]. rewrite Hnone, Hclient, Hinspect.
  cbn [fst snd]. rewrite bool_decide_eq_false_2 by (intros Hne; apply Hne; exact Hours).
  rewrite setupNetworkState_run, Hcfg. cbv zeta. cbn [drv world trace]. rewrite Hinit.
  cbn [drv world trace vethPair Attrs Name PeerName]. rewrite Hattach, Hgw.
  rewrite <- !app_assoc. reflexivity.
Qed.

Lemma sublist_snoc_r {A : Type} (l k : list A) (x : A) :
  sublist l k -> sublist l (k ++ [x])%list.
Proof.
  intros H. rewrite <- (app_nil_r l). apply sublist_app; [exact H | apply sublist_nil_l].
Qed.

Lemma setupNetworkState_events id options gateway (st : State W) :
  exists evs : list event,
    trace (snd (setupNetworkState svc id options gateway st)) = (trace st ++ evs)%list /\
    sublist evs [EvInitBridge id].
Proof.
  rewrite setupNetworkState_run.
  destruct (resolveConfig id options gateway) as [[ns|e]|p].
  - cbv zeta. destruct (initBridge svc _ id (world st)) as [[e|] w];
      exists [EvInitBridge id]; split; reflexivity.
  - exists []. split; [symmetry; apply app_nil_r | apply sublist_nil_l].
  - exists []. split; [symmetry; apply app_nil_r | apply sublist_nil_l].
Qed.

Lemma findNetworkState_events (id : string) (st : State W) :
  exists evs : list event,
    trace (snd (findNetworkState svc id st)) = (trace st ++ evs)%list /\
    sublist evs [EvInspectNetwork id; EvInitBridge id].
Proof.
  rewrite findNetworkState_run.
  destruct (networks (drv st) !! id) as [ns|];
    [exists []; split; [symmetry; apply app_nil_r | apply sublist_nil_l]|].
  destruct (client (drv st)) as [c|];
    [|exists []; split; [symmetry; apply app_nil_r | apply sublist_nil_l]].
  cbv zeta.
  assert (Hone : sublist [EvInspectNetwork id] [EvInspectNetwork id; EvInitBridge id]).
  { apply sublist_skip, sublist_nil_l. }
  destruct (fst (InspectNetwork svc c id (world st))) as [network|err];
    [|exists [EvInspectNetwork id]; split; [reflexivity | exact Hone]].
  destruct (bool_decide (NR_Driver network <> name (drv st)));
    [exists [EvInspectNetwork id]; split; [reflexivity | exact Hone]|].
  destruct (setupNetworkState_events id (NR_Options network)
              (firstIPv4Gateway svc (NR_IPAM_Config network) "")
              (mkState (drv st) (snd (InspectNetwork svc c id (world st)))
                 (trace st ++ [EvInspectNetwork id]))) as (evs & Htrace & Hsub).
  exists (EvInspectNetwork id :: evs). split.
  - rewrite Htrace. cbn [trace]. rewrite <- app_assoc. reflexivity.
  - apply sublist_skip. exact Hsub.
Qed.

(** X15. Whatever the kernel, the daemon and the switch answer, the calls
    that one Join makes are taken, in this order and each at most once, from:
    creation of the link pair, bring-up, lookup at the Docker daemon, bridge
    initialization, attachment of the port. Join never deletes a link, a
    port or a bridge. *)
Theorem Join_call_order (r : JoinRequest) (st : State W) :
  exists (evs : list event) (bridgeName : string),
    trace (after (Join svc r st)) = (trace st ++ evs)%list /\
    sublist evs
      [EvLinkAdd (vethPair (substring 0 5 (J_EndpointID r)));
       EvLinkSetUp (vethPair (substring 0 5 (J_EndpointID r)));
       EvInspectNetwork (J_NetworkID r);
       EvInitBridge (J_NetworkID r);
       EvAddOvsVethPort bridgeName (ovsPortPrefix ++ substring 0 5 (J_EndpointID r)) 0] /\
    Forall (fun e => isTeardown e = false) evs.
Proof.
  assert (Hquiet : forall (evs : list event) (b : string),
    sublist evs
      [EvLinkAdd (vethPair (substring 0 5 (J_EndpointID r)));
       EvLinkSetUp (vethPair (substring 0 5 (J_EndpointID r)));
       EvInspectNetwork (J_NetworkID r);
       EvInitBridge (J_NetworkID r);
       EvAddOvsVethPort b (ovsPortPrefix ++ substring 0 5 (J_EndpointID r)) 0] ->
    Forall (fun e => isTeardown e = false) evs).
  { intros evs b Hsub. apply Forall_forall. intros e He.
    apply (sublist_subseteq _ _ Hsub) in He. revert e He.
    apply Forall_forall. repeat constructor. }
  enough (exists (evs : list event) (bridgeName : string),
    trace (after (Join svc r st)) = (trace st ++ evs)%list /\
    sublist evs
      [EvLinkAdd (vethPair (substring 0 5 (J_EndpointID r)));
       EvLinkSetUp (vethPair (substring 0 5 (J_EndpointID r)));
       EvInspectNetwork (J_NetworkID r);
       EvInitBridge (J_NetworkID r);
       EvAddOvsVethPort bridgeName (ovsPortPrefix ++ substring 0 5 (J_EndpointID r)) 0])
    as (evs & b & Htrace & Hsub) by (exists evs, b; eauto).
  rewrite Join_run. unfold after.
  destruct (truncateID (J_EndpointID r)) as [id5|p] eqn:Htrunc;
    [|exists [], ""; split; [symmetry; apply app_nil_r | apply sublist_nil_l]].
  assert (Hid5 : id5 = substring 0 5 (J_EndpointID r)).
  { unfold truncateID in Htrunc.
    destruct (5 <=? Z.of_nat (String.length (J_EndpointID r))); congruence. }
  rewrite <- Hid5. clear Hid5 Htrunc. cbv zeta.
  destruct (LinkAdd svc (vethPair id5) (world st)) as [[e|] w1].
  { exists [EvLinkAdd (vethPair id5)], "". split; [reflexivity|].
    apply sublist_skip, sublist_nil_l. }
  destruct (LinkSetUp svc (vethPair id5) w1) as [[e|] w2].
  { exists [EvLinkAdd (vethPair id5); EvLinkSetUp (vethPair id5)], "".
    split; [reflexivity|]. apply sublist_skip, sublist_skip, sublist_nil_l. }
  destruct (findNetworkState_events (J_NetworkID r)
              (mkState (drv st) w2
                 (trace st ++ [EvLinkAdd (vethPair id5); EvLinkSetUp (vethPair id5)])))
    as (evs & Htrace & Hsub).
  cbn [trace] in Htrace.
  destruct (findNetworkState svc (J_NetworkID r) _) as [[[[ns|] [e|]]|p] st3];
    cbn [snd] in *.
  - exists (EvLinkAdd (vethPair id5) :: EvLinkSetUp (vethPair id5) :: evs), "".
    split; [rewrite Htrace, <- app_assoc; reflexivity|].
    apply sublist_skip, sublist_skip.
    apply (sublist_snoc_r evs [_; _]). exact Hsub.
  - destruct (addOvsVethPort svc (BridgeName ns) _ 0 (world st3)) as [[e|] w3];
      cbn [snd trace];
      exists (EvLinkAdd (vethPair id5) :: EvLinkSetUp (vethPair id5) ::
              evs ++ [EvAddOvsVethPort (BridgeName ns) (ovsPortPrefix ++ id5) 0]),
             (BridgeName ns);
      (split; [rewrite Htrace, <- !app_assoc; reflexivity|]);
      apply sublist_skip, sublist_skip;
      apply (sublist_app evs [_; _] [_] [_] Hsub); reflexivity.
  - exists (EvLinkAdd (vethPair id5) :: EvLinkSetUp (vethPair id5) :: evs), "".
    split; [rewrite Htrace, <- app_assoc; reflexivity|].
    apply sublist_skip, sublist_skip.
    apply (sublist_snoc_r evs [_; _]). exact Hsub.
  - exists (EvLinkAdd (vethPair id5) :: EvLinkSetUp (vethPair id5) :: evs), "".
    split; [rewrite Htrace, <- app_assoc; reflexivity|].
    apply sublist_skip, sublist_skip.
    apply (sublist_snoc_r evs [_; _]). exact Hsub.
  - exists (EvLinkAdd (vethPair id5) :: EvLinkSetUp (vethPair id5) :: evs), "".
    split; [rewrite Htrace, <- app_assoc; reflexivity|].
    apply sublist_skip, sublist_skip.
    apply (sublist_snoc_r evs [_; _]). exact Hsub.
Qed.

Lemma setupNetworkState_success id options gateway (st st' : State W)
    (ns : NetworkState) :
  setupNetworkState svc id options gateway st = (Val (Some ns, None), st') ->
  networks (drv st') !! id = Some ns.
Proof.
  rewrite setupNetworkState_run.
  destruct (resolveConfig id options gateway) as [[ns'|e]|p]; try discriminate.
  cbv zeta. destruct (initBridge svc _ id (world st)) as [[e|] w]; [discriminate|].
  intros [= <- <-]. apply lookup_insert_eq.
Qed.

Lemma findNetworkState_success (id : string) (st st' : State W) (ns : NetworkState) :
  findNetworkState svc id st = (Val (Some ns, None), st') ->
  networks (drv st') !! id = Some ns.
Proof.
  rewrite findNetworkState_run.
  destruct (networks (drv st) !! id) as [ns'|] eqn:Hlookup.
  { intros [= <- <-]. exact Hlookup. }
  destruct (client (drv st)) as [c|]; [|discriminate].
  cbv zeta. destruct (fst (InspectNetwork svc c id (world st))) as [network|err];
    [|discriminate].
  destruct (bool_decide (NR_Driver network <> name (drv st))); [discriminate|].
  apply setupNetworkState_success.
Qed.

Lemma Join_success_registered (r : JoinRequest) (st st' : State W) (resp : JoinResponse) :
  Join svc r st = (Val (Some resp, None), st') ->
  exists ns : NetworkState,
    networks (drv st') !! J_NetworkID r = Some ns /\ JR_Gateway resp = Gateway ns.
Proof.
  rewrite Join_run.
  destruct (truncateID (J_EndpointID r)) as [id5|p]; [|discriminate]. cbv zeta.
  destruct (LinkAdd svc (vethPair id5) (world st)) as [[e|] w1]; [discriminate|].
  destruct (LinkSetUp svc (vethPair id5) w1) as [[e|] w2]; [discriminate|].
  destruct (findNetworkState svc (J_NetworkID r) _) as [[[[ns|] [e|]]|p] st3] eqn:Hfind;
    try discriminate.
  apply findNetworkState_success in Hfind.
  destruct (addOvsVethPort svc (BridgeName ns) _ 0 (world st3)) as [[e|] w3];
    [discriminate|].
  intros [= <- <-]. exists ns. split; [exact Hfind | reflexivity].
Qed.

Lemma Join_registered_quiet (r : JoinRequest) (st : State W) (ns : NetworkState) :
  networks (drv st) !! J_NetworkID r = Some ns ->
  fallbackLookups (trace (after (Join svc r st))) = fallbackLookups (trace st) /\
  drv (after (Join svc r st)) = drv st.
Proof.
  intros Hsome. rewrite Join_run. unfold after.
  destruct (truncateID (J_EndpointID r)) as [id5|p]; [|split; reflexivity]. cbv zeta.
  destruct (LinkAdd svc (vethPair id5) (world st)) as [[e|] w1].
  { cbn [snd trace drv]. rewrite fallbackLookups_app. cbn. split; [lia | reflexivity]. }
  destruct (LinkSetUp svc (vethPair id5) w1) as [[e|] w2].
  { cbn [snd trace drv]. rewrite fallbackLookups_app. cbn. split; [lia | reflexivity]. }
  rewrite (findNetworkState_registered svc _ _ ns) by exact Hsome.
  destruct (addOvsVethPort svc (BridgeName ns) _ 0 _) as [[e|] w3];
    cbn [snd trace drv]; rewrite !fallbackLookups_app; cbn; split; try lia; reflexivity.
Qed.

(** X16. A Join that succeeds leaves its network registered, with the
    gateway it returned: any later Join on the same network, for whatever
    endpoint, asks the Docker daemon nothing and leaves the driver as it
    is. The state rebuilt from the daemon is rebuilt once. *)
Theorem Join_after_successful_Join (r r' : JoinRequest) (st st' : State W)
    (resp : JoinResponse) :
  Join svc r st = (Val (Some resp, None), st') ->
  J_NetworkID r' = J_NetworkID r ->
  (exists ns : NetworkState,
     networks (drv st') !! J_NetworkID r = Some ns /\ JR_Gateway resp = Gateway ns) /\
  fallbackLookups (trace (after (Join svc r' st'))) = fallbackLookups (trace st') /\
  drv (after (Join svc r' st')) = drv st'.
Proof.
  intros Hjoin Hsame.
  destruct (Join_success_registered r st st' resp Hjoin) as (ns & Hns & Hgw).
  split; [exists ns; auto|].
  apply (Join_registered_quiet r' st' ns). rewrite Hsame. exact Hns.
Qed.

Lemma setupNetworkState_valid id options gateway (st : State W) :
  registryValid (drv st) ->
  registryValid (drv (snd (setupNetworkState svc id options gateway st))).
Proof.
  intros Hvalid. rewrite setupNetworkState_run.
  destruct (resolveConfig id options gateway) as [[ns|e]|p] eqn:Hcfg; try exact Hvalid.
  apply resolveConfig_valid in Hcfg. cbv zeta.
  destruct (initBridge svc _ id (world st)) as [[e|] w];
    unfold registryValid in *; cbn [snd drv networks withNetworks].
  - apply map_Forall_delete, map_Forall_insert_2; assumption.
  - apply map_Forall_insert_2; assumption.
Qed.

Lemma findNetworkState_valid (id : string) (st : State W) :
  registryValid (drv st) ->
  registryValid (drv (snd (findNetworkState svc id st))).
Proof.
  intros Hvalid. rewrite findNetworkState_run.
  destruct (networks (drv st) !! id) as [ns|]; [exact Hvalid|].
  destruct (client (drv st)) as [c|]; [|exact Hvalid]. cbv zeta.
  destruct (fst (InspectNetwork svc c id (world st))) as [network|err]; [|exact Hvalid].
  destruct (bool_decide (NR_Driver network <> name (drv st))); [exact Hvalid|].
  apply setupNetworkState_valid. exact Hvalid.
Qed.

(** X17. Every state in the registry has the mode [nat] or [flat] and the
    mask [24]: this holds of the empty registry of a new driver, and each of
    CreateNetwork, DeleteNetwork, Join and Leave keeps it, whatever the
    request and whatever the kernel, the daemon and the switch answer,
    also when the handler fails or panics. *)
Theorem registryValid_preserved (st : State W) :
  registryValid (drv st) ->
  (forall r, registryValid (drv (after (CreateNetwork svc r st)))) /\
  (forall r, registryValid (drv (after (DeleteNetwork svc r st)))) /\
  (forall r, registryValid (drv (after (Join svc r st)))) /\
  (forall r, registryValid (drv (after (Leave svc r st)))).
Proof.
  intros Hvalid. unfold after. split; [|split; [|split]]; intros r.
  - rewrite CreateNetwork_run.
    destruct (IPv4Data r) as [|[ipam|] rest]; try exact Hvalid.
    pose proof (setupNetworkState_valid (CN_NetworkID r) (stringOptions r)
                  (IPAM_Gateway ipam) st Hvalid) as Hsetup.
    destruct (setupNetworkState svc _ _ _ st) as [[[ns err]|p] st']; exact Hsetup.
  - rewrite DeleteNetwork_run.
    destruct (networks (drv st) !! DN_NetworkID r) as [ns|]; [|exact Hvalid].
    cbv zeta. destruct (deleteBridge svc (BridgeName ns) (world st)) as [[e|] w];
      [exact Hvalid|].
    unfold registryValid in *. cbn [snd drv networks withNetworks].
    apply map_Forall_delete. exact Hvalid.
  - rewrite Join_run.
    destruct (truncateID (J_EndpointID r)) as [id5|p]; [|exact Hvalid]. cbv zeta.
    destruct (LinkAdd svc (vethPair id5) (world st)) as [[e|] w1]; [exact Hvalid|].
    destruct (LinkSetUp svc (vethPair id5) w1) as [[e|] w2]; [exact Hvalid|].
    pose proof (findNetworkState_valid (J_NetworkID r)
                  (mkState (drv st) w2
                     (trace st ++ [EvLinkAdd (vethPair id5); EvLinkSetUp (vethPair id5)]))
                  Hvalid) as Hfind.
    destruct (findNetworkState svc (J_NetworkID r) _) as [[[[ns|] [e|]]|p] st3];
      try exact Hfind.
    destruct (addOvsVethPort svc (BridgeName ns) _ 0 (world st3)) as [[e|] w3];
      exact Hfind.
  - rewrite Leave_run.
    destruct (truncateID (L_EndpointID r)) as [id5|p]; [|exact Hvalid]. cbv zeta.
    destruct (networks (drv st) !! L_NetworkID r) as [ns|]; exact Hvalid.
Qed.

Lemma Join_registered_state (r : JoinRequest) (st : State W) (ns : NetworkState)
    (id5 : string) (w1 w2 w3 : W) :
  networks (drv st) !! J_NetworkID r = Some ns ->
  truncateID (J_EndpointID r) = Val id5 ->
  LinkAdd svc (vethPair id5) (world st) = (None, w1) ->
  LinkSetUp svc (vethPair id5) w1 = (None, w2) ->
  addOvsVethPort svc (BridgeName ns) (ovsPortPrefix ++ id5) 0 w2 = (None, w3) ->
  Join svc r st =
    (Val (Some {| JR_InterfaceName := {| SrcName := "ethc" ++ id5; DstPrefix := "eth" |};
                  JR_Gateway := Gateway ns |}, None),
     mkState (drv st) w3
       (trace st ++ [EvLinkAdd (vethPair id5); EvLinkSetUp (vethPair id5);
                     EvAddOvsVethPort (BridgeName ns) (ovsPortPrefix ++ id5) 0])).
Proof.
  intros Hsome Htrunc Hadd Hup Hattach.
  rewrite Join_run, Htrunc. cbv zeta. rewrite Hadd, Hup.
  rewrite (findNetworkState_registered svc _ _ ns) by exact Hsome.
  cbn [drv world trace vethPair Attrs Name PeerName]. rewrite Hattach.
  rewrite <- app_assoc. reflexivity.
Qed.

(** X18. Join then Leave for one endpoint on a registered network, when the
    endpoint's truncated identifier has no [%] in it (so that the format of
    the port name prints as it stands): Leave deletes the very link pair
    that Join created and detaches, from the same bridge, the very port that
    Join attached, and returns what the detachment answers. *)
Theorem Join_then_Leave (nid eid sandbox : string) (st : State W) (ns : NetworkState)
    (id5 : string) (w1 w2 w3 w4 w5 : W) (delErr detachErr : option error) :
  let link := vethPair id5 in
  let port := ovsPortPrefix ++ id5 in
  let joined := Join svc {| J_NetworkID := nid; J_EndpointID := eid;
                            SandboxKey := sandbox |} st in
  let left := Leave svc {| L_NetworkID := nid; L_EndpointID := eid |} (after joined) in
  (forall format : string, noVerb format = true -> Sprintf svc format = format) ->
  noVerb id5 = true ->
  networks (drv st) !! nid = Some ns ->
  truncateID eid = Val id5 ->
  LinkAdd svc link (world st) = (None, w1) ->
  LinkSetUp svc link w1 = (None, w2) ->
  addOvsVethPort svc (BridgeName ns) port 0 w2 = (None, w3) ->
  LinkDel svc link w3 = (delErr, w4) ->
  deletePort svc (BridgeName ns) port w4 = (detachErr, w5) ->
  returned left = Val detachErr /\
  drv (after left) = drv st /\
  trace (after left) =
    (trace st ++ [EvLinkAdd link; EvLinkSetUp link;
                  EvAddOvsVethPort (BridgeName ns) port 0;
                  EvLinkDel link; EvDeletePort (BridgeName ns) port])%list.
Proof.
  intros link port joined left Hsprintf Hverb Hsome Htrunc Hadd Hup Hattach Hdel Hdetach.
  assert (Hport : Sprintf svc port = port).
  { apply Hsprintf. unfold port. cbn. exact Hverb. }
  unfold left, joined, after, returned.
  rewrite (Join_registered_state
             {| J_NetworkID := nid; J_EndpointID := eid; SandboxKey := sandbox |}
             st ns id5 w1 w2 w3 Hsome Htrunc Hadd Hup Hattach).
  cbn [fst snd]. rewrite Leave_run. cbn [L_EndpointID L_NetworkID drv world trace].
  rewrite Htrunc. cbv zeta. fold link. fold port. rewrite Hsome, Hport, Hdel.
  cbn [fst snd]. rewrite Hdetach. cbn [fst snd drv trace].
  split; [reflexivity|]. split; [reflexivity|].
  rewrite <- !app_assoc. reflexivity.
Qed.

(** X19. Join and Leave read no more of an endpoint identifier than its
    first five bytes: for two endpoints that share them, on the same
    network, each of the two handlers does and returns the same, so that a
    second Join asks the kernel for a link pair of the names already used
    by the first. *)
Theorem endpoint_collision (nid eid1 eid2 sandbox1 sandbox2 : string) (st : State W) :
  (5 <= String.length eid1)%nat ->
  (5 <= String.length eid2)%nat ->
  substring 0 5 eid1 = substring 0 5 eid2 ->
  Join svc {| J_NetworkID := nid; J_EndpointID := eid1; SandboxKey := sandbox1 |} st
  = Join svc {| J_NetworkID := nid; J_EndpointID := eid2; SandboxKey := sandbox2 |} st /\
  Leave svc {| L_NetworkID := nid; L_EndpointID := eid1 |} st
  = Leave svc {| L_NetworkID := nid; L_EndpointID := eid2 |} st.
Proof.
  intros Hlen1 Hlen2 Hprefix.
  assert (Htrunc : truncateID eid1 = truncateID eid2).
  { unfold truncateID.
    destruct (Z.leb_spec 5 (Z.of_nat (String.length eid1))); [|lia].
    destruct (Z.leb_spec 5 (Z.of_nat (String.length eid2))); [|lia].
    rewrite Hprefix. reflexivity. }
  split.
  - rewrite !Join_run. cbn [J_EndpointID J_NetworkID]. rewrite Htrunc. reflexivity.
  - rewrite !Leave_run. cbn [L_EndpointID L_NetworkID]. rewrite Htrunc. reflexivity.
Qed.

(** X20. The gateway that the fallback hands to the resolution is the
    gateway of the first entry of the IPAM configuration that is an IPv4
    address, entries before it being skipped, and the empty default when no
    entry has one. *)
Theorem firstIPv4Gateway_first (before after' : list IPAMConfig) (value : IPAMConfig)
    (gateway : string) :
  Forall (fun v => ParseIP_To4 svc (IC_Gateway v) = false) before ->
  (ParseIP_To4 svc (IC_Gateway value) = true ->
     firstIPv4Gateway svc (before ++ value :: after') gateway = IC_Gateway value) /\
  firstIPv4Gateway svc before gateway = gateway.
Proof.
  intros Hbefore. induction Hbefore as [|v before Hv _ IH]; cbn [app firstIPv4Gateway].
  - split; [intros ->; reflexivity | reflexivity].
  - rewrite Hv. exact IH.
Qed.

End MoreHandlerFacts.

(** ** interfaceUp *)

(** X21. interfaceUp never reports a link that cannot be found: when the
    lookup by name yields no link and an error, building the debug message
    reads the name of the nil link and panics, and the error is not
    returned. When the lookup yields a link, the answer is that of the
    bring-up. *)
Theorem interfaceUp_lookup_failure {W Link : Type}
    (LinkByName : string -> W -> (option Link * option error) * W)
    (LinkSetUpLink : Link -> W -> option error * W) (ifname : string) (w : W) :
  (forall (e : error) (w1 : W),
     LinkByName ifname w = ((None, Some e), w1) ->
     interfaceUp LinkByName LinkSetUpLink ifname w = (Panic NilDereference, w1)) /\
  (forall (link : Link) (w1 w2 : W) (res : option error),
     LinkByName ifname w = ((Some link, None), w1) ->
     LinkSetUpLink link w1 = (res, w2) ->
     interfaceUp LinkByName LinkSetUpLink ifname w = (Val res, w2)).
Proof.
  unfold interfaceUp. split.
  - intros e w1 ->. reflexivity.
  - intros link w1 w2 res -> ->. reflexivity.
Qed.

(** ** NewDriver *)

Lemma countStartup_app (p : startupEvent -> bool) (log more : list startupEvent) :
  countStartup p (log ++ more) = (countStartup p log + countStartup p more)%nat.
Proof.
  unfold countStartup. rewrite List.filter_app. apply List.length_app.
Qed.

Lemma countStartup_cons (p : startupEvent -> bool) (e : startupEvent)
    (log : list startupEvent) :
  countStartup p (e :: log) = ((if p e then 1 else 0) + countStartup p log)%nat.
Proof.
  unfold countStartup. cbn [List.filter]. destruct (p e); reflexivity.
Qed.

Lemma connectLoop_retries {W Ovsdb : Type} (su : Startup W Ovsdb) :
  connectContract su ->
  forall (attempts : nat) (w : W) (log : list startupEvent),
    exists (connects sleeps : nat) (evs : list startupEvent),
      snd (connectLoop su attempts None w log) = (log ++ evs)%list /\
      countStartup isConnect evs = connects /\
      countStartup isSleep evs = sleeps /\
      countStartup isInitDBCache evs = 0%nat /\
      match fst (fst (connectLoop su attempts None w log)) with
      | Some _ => (1 <= connects <= attempts)%nat /\ sleeps = (connects - 1)%nat
      | None => connects = attempts /\ sleeps = attempts
      end.
Proof.
  intros Hcontract attempts.
  induction attempts as [|rest IH]; intros w log; cbn [connectLoop].
  - exists 0%nat, 0%nat, []. cbn. rewrite app_nil_r. repeat split.
  - pose proof (Hcontract (localhost su) (ovsdbPort su) w) as Hc.
    destruct (Connect su (localhost su) (ovsdbPort su) w) as [[ovsdb err] w1].
    cbn [fst] in Hc. destruct ovsdb as [conn|], err as [e|]; try contradiction.
    + exists 1%nat, 0%nat, [SvConnect (localhost su) (ovsdbPort su)]. cbn.
      split; [reflexivity|]. split; [reflexivity|]. split; [reflexivity|].
      split; [reflexivity|]. lia.
    + destruct (IH (Sleep su 5 w1)
                  ((log ++ [SvConnect (localhost su) (ovsdbPort su)]) ++ [SvSleep 5])%list)
        as (connects & sleeps & evs & Hlog & Hconnects & Hsleeps & Hinit & Hres).
      exists (S connects), (S sleeps),
        (SvConnect (localhost su) (ovsdbPort su) :: SvSleep 5 :: evs).
      split; [rewrite Hlog, <- !app_assoc; reflexivity|].
      split; [cbn; rewrite <- Hconnects; reflexivity|].
      split; [cbn; rewrite <- Hsleeps; reflexivity|].
      split; [exact Hinit|].
      destruct (fst (fst (connectLoop su rest None _ _))); lia.
Qed.

(** X22. NewDriver, once the Docker client is made, and with a [Connect]
    that returns either a connection or an error: it connects to the switch
    at most three times and sleeps after every attempt that failed, the last
    one included. It returns a driver, with the given name and an empty
    registry, as soon as an attempt succeeds, and loads the cache of the
    switch then; it gives up with [could not connect to open vswitch] only
    after three failed attempts and three sleeps, the cache not loaded. *)
Theorem NewDriver_retries {W Ovsdb : Type} (su : Startup W Ovsdb) (name0 : string)
    (w w1 w' : W) (docker : option DockerClient) (result : option (Driver * Ovsdb))
    (err : option error) (log : list startupEvent) :
  connectContract su ->
  NewDockerClient su "unix:///var/run/docker.sock" w = ((docker, None), w1) ->
  NewDriver su name0 w = (result, err, w', log) ->
  let connects := countStartup isConnect log in
  let sleeps := countStartup isSleep log in
  match result, err with
  | Some (d, _), None =>
      d = {| name := name0; client := docker; networks := ∅ |} /\
      (1 <= connects <= 3)%nat /\ sleeps = (connects - 1)%nat /\
      List.last log (SvSleep 0) = SvInitDBCache /\
      countStartup isInitDBCache log = 1%nat
  | None, Some e =>
      e = Errorf "could not connect to open vswitch" /\
      connects = 3%nat /\ sleeps = 3%nat /\
      countStartup isInitDBCache log = 0%nat
  | _, _ => False
  end.
Proof.
  intros Hcontract Hdocker. unfold NewDriver. rewrite Hdocker. cbv zeta.
  destruct (connectLoop_retries su Hcontract 3 w1
              [SvNewDockerClient "unix:///var/run/docker.sock"])
    as (connects & sleeps & evs & Hlog & Hconnects & Hsleeps & Hinit & Hres).
  destruct (connectLoop su 3 None w1 _) as [[ovsdb w2] log2].
  cbn [fst snd] in Hlog, Hres. subst log2.
  destruct ovsdb as [conn|]; intros [= <- <- <- <-]; cbv zeta.
  - rewrite !countStartup_cons, !countStartup_app, Hconnects, Hsleeps, Hinit. cbn.
    split; [reflexivity|]. split; [lia|]. split; [lia|].
    split; [|reflexivity].
    apply (List.last_last (SvNewDockerClient _ :: evs) SvInitDBCache).
  - destruct Hres as [-> ->].
    rewrite !countStartup_cons, Hconnects, Hsleeps, Hinit. cbn. auto.
Qed.

(** ** The further properties on concrete runs *)

(** X1 on the endpoint of the scenarios. *)
Lemma truncateID_prefix_run :
  String.length "endpo" = 5%nat /\
  (exists rest : string, "endpoint12345" = "endpo" ++ rest) /\
  truncateID "endpo" = Val "endpo".
Proof. apply (truncateID_prefix "endpoint12345" "endpo"). reflexivity. Defined.

(** X2 on the endpoint of the scenarios. *)
Lemma derived_names_length_run :
  String.length (Name (Attrs (vethPair "endpo"))) = 15%nat /\
  String.length (PeerName (vethPair "endpo")) = 9%nat /\
  exists bridgeName : string,
    getBridgeName "endpoint12345" ∅ = Val (bridgeName, None) /\
    String.length bridgeName = 11%nat.
Proof.
  apply (derived_names_length "endpoint12345" "endpo" ∅); reflexivity.
Defined.

(** X3: the name [br0] for a long and for a short identifier. *)
Lemma getBridgeName_override_run :
  getBridgeName "net12345" (<[bridgeNameOption := "br0"]> ∅) = Val ("br0", None) /\
  getBridgeName "net1" (<[bridgeNameOption := "br0"]> ∅) = Panic SliceBoundsOutOfRange.
Proof.
  assert (Hname : (<[bridgeNameOption := "br0"]> ∅ : gmap string string)
                    !! bridgeNameOption = Some "br0") by (vm_compute; reflexivity).
  split.
  - apply (proj1 (getBridgeName_override "net12345" (<[bridgeNameOption := "br0"]> ∅)
                    "br0" Hname)). cbn. lia.
  - apply (proj2 (getBridgeName_override "net1" (<[bridgeNameOption := "br0"]> ∅)
                    "br0" Hname)). cbn. lia.
Defined.

(** X4: the mode, a string, is kept. *)
Lemma stringOptions_lookup_run :
  stringOptions (createWithMode "net12345" "flat") !! modeOption = Some "flat".
Proof.
  apply (proj2 (stringOptions_lookup (createWithMode "net12345" "flat") modeOption "flat")).
  exists (<[modeOption := AString "flat"]> (<[mtuOption := AOther]> ∅)).
  split; reflexivity.
Defined.

(** X5 on a switch that refuses the bridge. *)
Lemma CreateNetwork_error_provenance_run :
  (InvalidConfiguration (External "ovsdb: bridge transaction failed") /\
   after (CreateNetwork (scripted initFails) (createRequest "net12345" [Some ipam10]) start)
   = start) \/
  (exists (registry : gmap string NetworkState) (w : unit),
     initBridge (scripted initFails) registry "net12345" tt
       = (Some (External "ovsdb: bridge transaction failed"), w) /\
     networks (drv (after (CreateNetwork (scripted initFails)
                             (createRequest "net12345" [Some ipam10]) start)))
       !! "net12345" = None /\
     trace (after (CreateNetwork (scripted initFails)
                     (createRequest "net12345" [Some ipam10]) start))
       = [EvInitBridge "net12345"]).
Proof.
  apply (CreateNetwork_error_provenance (scripted initFails)
           (createRequest "net12345" [Some ipam10]) start
           (after (CreateNetwork (scripted initFails)
                     (createRequest "net12345" [Some ipam10]) start))
           (External "ovsdb: bridge transaction failed")).
  vm_compute. reflexivity.
Defined.

(** X6 on the mode [bridge]. *)
Lemma CreateNetwork_invalid_mode_run :
  CreateNetwork (scripted (allGood "ovs")) (createWithMode "net12345" "bridge") start
  = (Val (Some (Errorf "bridge is not a valid mode")), start).
Proof.
  apply (CreateNetwork_invalid_mode (scripted (allGood "ovs"))
           (createWithMode "net12345" "bridge") start ipam10 [] "bridge").
  - reflexivity.
  - cbn. lia.
  - vm_compute. reflexivity.
  - discriminate.
  - discriminate.
Defined.

(** X7 when the switch deletes the bridge. *)
Lemma DeleteNetwork_registered_run :
  returned (DeleteNetwork (scripted (allGood "ovs")) {| DN_NetworkID := "net12345" |}
              (registered "net12345" (defaultState "ovsbr-net12"))) = Val None /\
  trace (after (DeleteNetwork (scripted (allGood "ovs")) {| DN_NetworkID := "net12345" |}
                  (registered "net12345" (defaultState "ovsbr-net12"))))
    = [EvDeleteBridge "ovsbr-net12"] /\
  networks (drv (after (DeleteNetwork (scripted (allGood "ovs"))
                          {| DN_NetworkID := "net12345" |}
                          (registered "net12345" (defaultState "ovsbr-net12")))))
    = delete "net12345" (<["net12345" := defaultState "ovsbr-net12"]> ∅).
Proof.
  apply (DeleteNetwork_registered (scripted (allGood "ovs")) {| DN_NetworkID := "net12345" |}
           (registered "net12345" (defaultState "ovsbr-net12"))
           (defaultState "ovsbr-net12") None tt);
    reflexivity.
Defined.

(** X8 from a fresh start. *)
Lemma CreateNetwork_then_DeleteNetwork_run :
  networks (drv (after (DeleteNetwork (scripted (allGood "ovs"))
                          {| DN_NetworkID := "net12345" |}
                          (after (CreateNetwork (scripted (allGood "ovs"))
                                    (createRequest "net12345" [Some ipam10]) start)))))
    = ∅ /\
  trace (after (DeleteNetwork (scripted (allGood "ovs"))
                  {| DN_NetworkID := "net12345" |}
                  (after (CreateNetwork (scripted (allGood "ovs"))
                            (createRequest "net12345" [Some ipam10]) start))))
    = [EvInitBridge "net12345"; EvDeleteBridge "ovsbr-net12"].
Proof.
  refine (proj2 (proj2 (CreateNetwork_then_DeleteNetwork (scripted (allGood "ovs"))
                          (createRequest "net12345" [Some ipam10]) start ipam10 []
                          (defaultState "ovsbr-net12") tt tt _ _ _ _ _)));
    reflexivity.
Defined.

(** X9 from a fresh start. *)
Lemma CreateNetwork_twice_run :
  trace (after (CreateNetwork (scripted (allGood "ovs"))
                  (createRequest "net12345" [Some ipam10])
                  (after (CreateNetwork (scripted (allGood "ovs"))
                            (createRequest "net12345" [Some ipam10]) start))))
    = [EvInitBridge "net12345"; EvInitBridge "net12345"].
Proof.
  refine (proj2 (proj2 (CreateNetwork_twice (scripted (allGood "ovs"))
                          (createRequest "net12345" [Some ipam10]) start ipam10 []
                          (defaultState "ovsbr-net12") tt tt _ _ _ _)));
    reflexivity.
Defined.

(** X10 on the identifiers [net12345] and [net12999]. *)
Lemma CreateNetwork_bridge_name_collision_run :
  networks (drv (after (CreateNetwork (scripted (allGood "ovs"))
                          (createRequest "net12999" [Some ipam10])
                          (after (CreateNetwork (scripted (allGood "ovs"))
                                    (createRequest "net12345" [Some ipam10]) start)))))
    !! "net12345" = Some (defaultState "ovsbr-net12") /\
  networks (drv (after (CreateNetwork (scripted (allGood "ovs"))
                          (createRequest "net12999" [Some ipam10])
                          (after (CreateNetwork (scripted (allGood "ovs"))
                                    (createRequest "net12345" [Some ipam10]) start)))))
    !! "net12999" = Some (defaultState "ovsbr-net12").
Proof.
  pose proof (CreateNetwork_bridge_name_collision (scripted (allGood "ovs"))
                (createRequest "net12345" [Some ipam10])
                (createRequest "net12999" [Some ipam10]) start ipam10 ipam10 [] [] tt tt)
    as Hcollide.
  cbv zeta in Hcollide.
  destruct Hcollide as (_ & _ & Hfirst & Hsecond & _);
    [discriminate | cbn; lia | cbn; lia | reflexivity | reflexivity | reflexivity
    | reflexivity | reflexivity | reflexivity | reflexivity |].
  split; [exact Hfirst | exact Hsecond].
Defined.

(** X11 when the kernel refuses the link pair. *)
Lemma Join_link_failure_run :
  Join (scripted linkAddFails) (joinRequest "net12345") start
  = (Val (None, Some (External "file exists")),
     mkState newDriver tt [EvLinkAdd (vethPair "endpo")]).
Proof.
  apply (proj1 (Join_link_failure (scripted linkAddFails) (joinRequest "net12345") start
                  "endpo" (External "file exists") eq_refl) tt).
  reflexivity.
Defined.

(** X12 when the switch refuses the port. *)
Lemma Join_attach_failure_run :
  Join (scripted attachFails) (joinRequest "net12345")
    (registered "net12345" (defaultState "ovsbr-net12"))
  = (Val (None, Some (External "ovsdb: port transaction failed")),
     mkState (withNetworks newDriver (<["net12345" := defaultState "ovsbr-net12"]> ∅)) tt
       [EvLinkAdd (vethPair "endpo"); EvLinkSetUp (vethPair "endpo");
        EvAddOvsVethPort "ovsbr-net12" "ovs-veth0-endpo" 0]).
Proof.
  apply (Join_attach_failure (scripted attachFails) (joinRequest "net12345")
           (registered "net12345" (defaultState "ovsbr-net12"))
           (defaultState "ovsbr-net12") "endpo" tt tt tt
           (External "ovsdb: port transaction failed")); reflexivity.
Defined.

(** X13 with the Docker client disabled. *)
Lemma Join_fallback_unavailable_run :
  Join (scripted (allGood "ovs")) (joinRequest "net12345") startWithoutDocker
  = (Val (None, Some (Errorf "Docker client disabled; unable to get network state")),
     mkState (drv startWithoutDocker) tt
       [EvLinkAdd (vethPair "endpo"); EvLinkSetUp (vethPair "endpo")]).
Proof.
  refine (proj1 (Join_fallback_unavailable (scripted (allGood "ovs"))
                   (joinRequest "net12345") startWithoutDocker "endpo" tt tt _ _ _ _) _);
    reflexivity.
Defined.

(** X14 from a fresh start, the daemon knowing the network as one of this
    driver. *)
Lemma Join_reconstructs_run :
  Join (scripted (allGood "ovs")) (joinRequest "net12345") start
  = (Val (Some {| JR_InterfaceName := {| SrcName := "ethcendpo"; DstPrefix := "eth" |};
                  JR_Gateway := "10.0.0.1" |}, None),
     mkState (withNetworks newDriver (<["net12345" := defaultState "ovsbr-net12"]> ∅)) tt
       [EvLinkAdd (vethPair "endpo"); EvLinkSetUp (vethPair "endpo");
        EvInspectNetwork "net12345"; EvInitBridge "net12345";
        EvAddOvsVethPort "ovsbr-net12" "ovs-veth0-endpo" 0]).
Proof.
  apply (Join_reconstructs (scripted (allGood "ovs")) (joinRequest "net12345") start
           "endpo" tt tt tt tt tt {| URL := "unix:///var/run/docker.sock" |}
           {| NR_Driver := "ovs";
              NR_IPAM_Config := [ {| Subnet := "10.0.0.0/24"; IC_Gateway := "10.0.0.1" |} ];
              NR_Options := ∅ |}
           (defaultState "ovsbr-net12")); reflexivity.
Defined.

(** X16: a second endpoint joins the network that the first Join rebuilt. *)
Lemma Join_after_successful_Join_run :
  fallbackLookups
    (trace (after (Join (scripted (allGood "ovs"))
                     {| J_NetworkID := "net12345"; J_EndpointID := "fedcba987";
                        SandboxKey := "" |}
                     (after (Join (scripted (allGood "ovs")) (joinRequest "net12345")
                               start))))) = 1%nat.
Proof.
  refine (proj1 (proj2 (Join_after_successful_Join (scripted (allGood "ovs"))
                          (joinRequest "net12345")
                          {| J_NetworkID := "net12345"; J_EndpointID := "fedcba987";
                             SandboxKey := "" |}
                          start
                          (after (Join (scripted (allGood "ovs")) (joinRequest "net12345")
                                    start))
                          {| JR_InterfaceName :=
                               {| SrcName := "ethcendpo"; DstPrefix := "eth" |};
                             JR_Gateway := "10.0.0.1" |} _ _)));
    reflexivity.
Defined.

(** X17 from the empty registry of a fresh start. *)
Lemma registryValid_preserved_run :
  registryValid (drv (after (CreateNetwork (scripted (allGood "ovs"))
                               (createWithMode "net12345" "flat") start))).
Proof.
  apply (registryValid_preserved (scripted (allGood "ovs")) start).
  apply map_Forall_empty.
Defined.

(** X18 when the kernel has lost the link by the time of Leave. *)
Lemma Join_then_Leave_run :
  trace (after (Leave (scripted leaveFails) {| L_NetworkID := "net12345";
                                               L_EndpointID := "endpoint12345" |}
                  (after (Join (scripted leaveFails)
                            {| J_NetworkID := "net12345"; J_EndpointID := "endpoint12345";
                               SandboxKey := "" |}
                            (registered "net12345" (defaultState "ovsbr-net12"))))))
  = [EvLinkAdd (vethPair "endpo"); EvLinkSetUp (vethPair "endpo");
     EvAddOvsVethPort "ovsbr-net12" "ovs-veth0-endpo" 0;
     EvLinkDel (vethPair "endpo"); EvDeletePort "ovsbr-net12" "ovs-veth0-endpo"].
Proof.
  refine (proj2 (proj2 (Join_then_Leave (scripted leaveFails) "net12345" "endpoint12345" ""
                          (registered "net12345" (defaultState "ovsbr-net12"))
                          (defaultState "ovsbr-net12") "endpo" tt tt tt tt tt
                          (Some (External "Link not found"))
                          (Some (External "ovsdb: port transaction failed"))
                          _ _ _ _ _ _ _ _ _))); reflexivity.
Defined.

(** X19 on two endpoints that begin with [endpo]. *)
Lemma endpoint_collision_run :
  Join (scripted (allGood "ovs"))
    {| J_NetworkID := "net12345"; J_EndpointID := "endpoint12345"; SandboxKey := "a" |} start
  = Join (scripted (allGood "ovs"))
      {| J_NetworkID := "net12345"; J_EndpointID := "endpoXYZ"; SandboxKey := "b" |} start.
Proof.
  refine (proj1 (endpoint_collision (scripted (allGood "ovs")) "net12345" "endpoint12345"
                   "endpoXYZ" "a" "b" start _ _ _)); [cbn; lia | cbn; lia | reflexivity].
Defined.

(** X20, an address counting as IPv4 when it is not empty: the entry
    without a gateway is skipped. *)
Lemma firstIPv4Gateway_first_run :
  firstIPv4Gateway (scripted (allGood "ovs"))
    [ {| Subnet := "fd00::/64"; IC_Gateway := "" |};
      {| Subnet := "10.0.0.0/24"; IC_Gateway := "10.0.0.1" |};
      {| Subnet := "10.1.0.0/24"; IC_Gateway := "10.1.0.1" |} ] ""
  = "10.0.0.1".
Proof.
  refine (proj1 (firstIPv4Gateway_first (scripted (allGood "ovs"))
                   [ {| Subnet := "fd00::/64"; IC_Gateway := "" |} ]
                   [ {| Subnet := "10.1.0.0/24"; IC_Gateway := "10.1.0.1" |} ]
                   {| Subnet := "10.0.0.0/24"; IC_Gateway := "10.0.0.1" |} "" _) _).
  - repeat constructor.
  - reflexivity.
Defined.

(** X21 on a kernel with no such link. *)
Lemma interfaceUp_lookup_failure_run :
  interfaceUp noSuchLink (LinkSetUp (scripted (allGood "ovs"))) "ovsbr-net12" tt
  = (Panic NilDereference, tt).
Proof.
  apply (proj1 (interfaceUp_lookup_failure noSuchLink
                  (LinkSetUp (scripted (allGood "ovs"))) "ovsbr-net12" tt)
           (External "Link not found") tt).
  reflexivity.
Defined.

Lemma flakySwitch_contract (failures : nat) : connectContract (flakySwitch failures).
Proof.
  intros host port w. unfold flakySwitch. cbn [Connect].
  destruct (w <? failures)%nat; exact I.
Qed.

(** X22 on a switch that accepts the third connection: three attempts, two
    sleeps, and the cache loaded last. *)
Lemma NewDriver_retries_run :
  snd (NewDriver (flakySwitch 2) "ovs" 0%nat)
    = [SvNewDockerClient "unix:///var/run/docker.sock";
       SvConnect "127.0.0.1" 6640; SvSleep 5;
       SvConnect "127.0.0.1" 6640; SvSleep 5;
       SvConnect "127.0.0.1" 6640; SvInitDBCache] /\
  (1 <= countStartup isConnect (snd (NewDriver (flakySwitch 2) "ovs" 0%nat)) <= 3)%nat /\
  countStartup isSleep (snd (NewDriver (flakySwitch 2) "ovs" 0%nat))
    = (countStartup isConnect (snd (NewDriver (flakySwitch 2) "ovs" 0%nat)) - 1)%nat.
Proof.
  pose proof (NewDriver_retries (flakySwitch 2) "ovs" 0%nat 0%nat 3%nat
                (Some {| URL := "unix:///var/run/docker.sock" |})
                (Some (newDriver, 2%nat)) None
                (snd (NewDriver (flakySwitch 2) "ovs" 0%nat))
                (flakySwitch_contract 2) eq_refl eq_refl) as Hretries.
  cbv zeta in Hretries. destruct Hretries as (_ & Hconnects & Hsleeps & _).
  split; [reflexivity|]. split; [exact Hconnects | exact Hsleeps].
Defined.
